(** * web_worker_transfer: registry, [serialize] and [deserialize]

    A shallow embedding of [src/util/web_worker_transfer.js].  JavaScript
    values are an inductive type; the optional [transferables] array, which
    the serializer mutates, is threaded explicitly and is returned even when
    the call throws; exceptions are results.  The module-level [registry]
    object is a finite map read through the prototype chain of a plain
    object, as [registry[name]] does. *)

From Stdlib Require Import PrimFloat.
From stdpp Require Import gmap strings list pretty.

#[local] Set Warnings "-register-all".

(** ** Values *)

(** An [ArrayBuffer] matters here through its identity only. *)
Record ArrayBuffer := { buffer_ref : nat }.

(** A typed array or [DataView]: its own identity, the buffer it views, and
    its integer-indexed elements (none for a [DataView]). *)
Record ArrayBufferView := {
  view_ref : nat;
  buffer : ArrayBuffer;
  elements : list float
}.

(** Modelled from the spec: the [Transferable] type, which the module
    imports from [../types/transferable].  The spec's transferable list is a
    list of binary buffers, and array buffers are all the engine pushes. *)
Abbreviation Transferable := ArrayBuffer (only parsing).

(** A constructor function, by reference: the built-in [Object] or a class
    of the host program. *)
Inductive Constructor :=
  | Object
  | ClassRef (ref : nat).

(** [VObject constructor own] is an object that is none of the built-in
    kinds above it: [constructor] is what [input.constructor] evaluates to
    ([None] for an object without one, such as [Object.create(null)]) and
    [own] lists the own enumerable string-keyed properties in enumeration
    order, each key once.  Properties inherited from the prototype are
    skipped by the serializer's [hasOwnProperty] test and come back with the
    prototype, so they are not listed.

    Three property names are read on the object itself, by the engine or by
    the language.  An own property named [hasOwnProperty] is what the loop
    of [serialize] calls (see [hasOwnProperty] below).  An assignment to
    [__proto__] goes to the setter of [Object.prototype] and creates no own
    property (see [set]); the setter ignores a primitive value, and what it
    does to the prototype when the value is an object or [null] is not
    followed here.  An own property named [constructor] is what
    [input.constructor] reads in place of the class: [serialize] is
    followed on objects that have none, and an object that [deserialize]
    has given one keeps in [constructor] the class whose prototype it has.
    The statements that depend on any of this leave such objects out: see
    [ordinary]. *)
Inductive value :=
  | VNull
  | VUndefined
  | VBoolean (b : bool)
  | VNumber (n : float)
  | VString (s : string)
  | VBooleanObject (ref : nat) (b : bool)
  | VNumberObject (ref : nat) (n : float)
  | VStringObject (ref : nat) (s : string)
  | VDate (ref : nat) (time : float)
  | VRegExp (ref : nat) (source flags : string)
  | VArrayBuffer (b : ArrayBuffer)
  | VView (view : ArrayBufferView)
  | VArray (items : list value)
  | VObject (constructor : option Constructor) (own : list (string * value))
  | VFunction (ref : nat)
  | VSymbol (ref : nat).

Abbreviation properties_of := (list (string * value)) (only parsing).

(** ** Completions *)

Inductive exception :=
  | Error (message : string)
  | TypeError
  | AssertionError (message : option string).

Inductive completion (A : Type) :=
  | Normal (a : A)
  | Throw (e : exception).
Arguments Normal {A} a.
Arguments Throw {A} e.

#[global] Instance completion_ret : MRet completion := @Normal.
#[global] Instance completion_bind : MBind completion := λ A B f c,
  match c with
  | Normal a => f a
  | Throw e => Throw e
  end.
#[global] Instance completion_fmap : FMap completion := λ A B f c,
  match c with
  | Normal a => Normal (f a)
  | Throw e => Throw e
  end.

(** The state of a call of [serialize]: the contents of the [transferables]
    array, or [None] when the caller passed none.  A computation returns the
    final contents also when it throws: what was pushed stays pushed. *)
Definition Transferables := option (list Transferable).
Definition M (A : Type) : Type := Transferables → completion A * Transferables.

Definition ret {A} (a : A) : M A := λ t, (Normal a, t).
Definition throw {A} (e : exception) : M A := λ t, (Throw e, t).
Definition bind {A B} (m : M A) (k : A → M B) : M B := λ t,
  match m t with
  | (Normal a, t') => k a t'
  | (Throw e, t') => (Throw e, t')
  end.

Notation "'let*' x ':=' m 'in' k" := (bind m (λ x, k))
  (at level 10, x name, m at level 100, k at level 200, only parsing).

(** [if (transferables) { transferables.push(b); }] *)
Definition push (b : Transferable) : M unit := λ t,
  (Normal tt, (λ l, l ++ [b]) <$> t).

(** ** Classes and the host *)

(** What the engine reads of a constructor function: [klass.name] (the empty
    string when the class is anonymous) and the optional static hooks
    [klass.serialize] and [klass.deserialize].  A hook is given the instance
    and the transferables array themselves; here it returns its payload and
    what it leaves in the array, and an instance is a value, which nothing
    can change.  The prototype of a class is taken to carry its methods
    only, [hasOwnProperty] not among them: nothing enumerable and no
    accessor that an assignment to an instance would meet. *)
Record Class := {
  name : string;
  static_serialize : option (value → M value);
  static_deserialize : option (value → completion value)
}.

(** The host program: its classes, and [ToString] on the values that are not
    strings (used when a transport record carries such a [name]). *)
Record Host := {
  classes : nat → Class;
  ToString : value → string
}.

Definition class_of (host : Host) (klass : Constructor) : Class :=
  match klass with
  | Object => {| name := "Object"; static_serialize := None; static_deserialize := None |}
  | ClassRef ref => classes host ref
  end.

(** ** Property access *)

(** Creating or overwriting an own property: overwrite in place, or append.
    Both loops of the engine insert keys in the enumeration order of their
    source, so appending keeps the list in enumeration order. *)
Fixpoint define_own (key : string) (v : value) (properties : properties_of)
    : properties_of :=
  match properties with
  | [] => [(key, v)]
  | (k, w) :: rest =>
      if String.eqb k key then (k, v) :: rest else (k, w) :: define_own key v rest
  end.

(** [target[key] = v] on an object that inherits from [Object.prototype], as
    [properties] and [result] do: the assignment creates or overwrites an
    own property, except under the key [__proto__], where it calls the
    inherited setter and no own property comes of it.  (The setter ignores
    a primitive [v]; given an object or [null] it replaces the prototype of
    the target, which a list of own properties does not show.) *)
Definition set (key : string) (v : value) (properties : properties_of) : properties_of :=
  if String.eqb key "__proto__" then properties else define_own key v properties.

Fixpoint lookup_own (key : string) (own : properties_of) : option value :=
  match own with
  | [] => None
  | (k, v) :: rest => if String.eqb k key then Some v else lookup_own key rest
  end.

(** Reading a property of an object ([undefined] when it has none). *)
Definition Get (own : properties_of) (key : string) : value :=
  default VUndefined (lookup_own key own).

(** [input.hasOwnProperty(key)] for a key that [for (key in input)] lists.
    Without an own property of that name the call reaches
    [Object.prototype.hasOwnProperty], which answers [true]: the keys listed
    here are the own ones.  An own property of that name is what gets
    called: when it is not a function the call throws a [TypeError].  When
    it is a function the code runs it; functions are opaque here and it is
    taken to answer as the built-in method does. *)
Definition not_callable (own : properties_of) : bool :=
  match lookup_own "hasOwnProperty" own with
  | None | Some (VFunction _) => false
  | Some _ => true
  end.

Definition hasOwnProperty (own : properties_of) (key : string) : M bool :=
  if not_callable own then throw TypeError else ret true.

(** The same lookup with the branches as continuations, so that the caller
    may recurse into the property found. *)
Definition with_property {A} (key : string) (found : value → A) (missing : A)
    : properties_of → A :=
  fix go own :=
    match own with
    | [] => missing
    | (k, v) :: rest => if String.eqb k key then found v else go rest
    end.

(** Enumerating [0 .. n-1] as property keys. *)
Definition indexed {A} (f : A → value) (l : list A) : properties_of :=
  imap (λ i x, (pretty i, f x)) l.

(** The code units of a string, one string each.  A string of this model is
    a list of code units below 256, one per character of [string]. *)
Definition characters (s : string) : list string :=
  (λ c, String c EmptyString) <$> String.list_ascii_of_string s.

(** Own enumerable properties of a value that is neither an array nor a
    [VObject]: the code units of a string, the elements of a typed array. *)
Definition own_of_exotic (v : value) : properties_of :=
  match v with
  | VString s | VStringObject _ s => indexed VString (characters s)
  | VView view => indexed VNumber (elements view)
  | _ => []
  end.

(** [holder.key] where [holder] is any value. *)
Definition GetV (holder : value) (key : string) : completion value :=
  match holder with
  | VUndefined | VNull => Throw TypeError
  | VObject _ own => Normal (Get own key)
  | VArray items => Normal (Get (indexed id items) key)
  | _ => Normal (Get (own_of_exotic holder) key)
  end.

Definition ToBoolean (v : value) : bool :=
  match v with
  | VUndefined | VNull => false
  | VBoolean b => b
  | VNumber n => negb (is_zero n || is_nan n)
  | VString s => negb (String.eqb s "")
  | _ => true
  end.

Definition ToPropertyKey (host : Host) (v : value) : string :=
  match v with
  | VString s => s
  | _ => ToString host v
  end.

(** ** The registry *)

Record Descriptor := {
  klass : Constructor;
  omit : list string;
  shallow : list string
}.

Abbreviation Registry := (gmap string Descriptor) (only parsing).

Record RegisterOptions := {
  options_omit : option (list string);
  options_shallow : option (list string)
}.

Definition no_options : RegisterOptions :=
  {| options_omit := None; options_shallow := None |}.

(** [registry] is created as [{}], so [registry[name]] also finds what every
    plain object inherits from [Object.prototype]. *)
Definition Object_prototype : list string :=
  [ "constructor"; "hasOwnProperty"; "isPrototypeOf"; "propertyIsEnumerable";
    "toLocaleString"; "toString"; "valueOf"; "__proto__";
    "__defineGetter__"; "__defineSetter__"; "__lookupGetter__"; "__lookupSetter__" ].

Inductive Entry :=
  | Own (d : Descriptor)
  | Inherited.

Definition registry_get (registry : Registry) (name : string) : option Entry :=
  match registry !! name with
  | Some d => Some (Own d)
  | None => if bool_decide (name ∈ Object_prototype) then Some Inherited else None
  end.

(** [register(klass, options)]: the completion and the registry afterwards. *)
Definition register (host : Host) (klass : Constructor) (options : RegisterOptions)
    (registry : Registry) : completion unit * Registry :=
  let name := name (class_of host klass) in
  if String.eqb name "" then (Throw (AssertionError None), registry)
  else if registry_get registry name is Some _ then
    (Throw (AssertionError (Some (name +:+ " is already registered."))), registry)
  else
    (Normal tt,
     <[ name := {| klass := klass;
                   omit := default [] (options_omit options);
                   shallow := default [] (options_shallow options) |} ]> registry).

(** *** Registrations made when the module is loaded *)

(** The classes required from [style-spec]; [expressions] is the table of
    [style-spec/expression/definitions], in enumeration order. *)
Record Imports := {
  Color : Constructor;
  StylePropertyFunction : Constructor;
  StyleExpression : Constructor;
  StyleExpressionWithErrorHandling : Constructor;
  ZoomDependentExpression : Constructor;
  ZoomConstantExpression : Constructor;
  CompoundExpression : Constructor;
  expressions : list (string * Constructor)
}.

(** One statement after another; a throw abandons the rest. *)
Definition and_then (first next : Registry → completion unit * Registry)
    (registry : Registry) : completion unit * Registry :=
  match first registry with
  | (Normal _, registry') => next registry'
  | (Throw e, registry') => (Throw e, registry')
  end.

(** [for (const name in expressions) { ... }] *)
Fixpoint register_expressions (host : Host) (table : list (string * Constructor))
    (registry : Registry) : completion unit * Registry :=
  match table with
  | [] => (Normal tt, registry)
  | (_, Expression) :: rest =>
      if registry_get registry (name (class_of host Expression)) is Some _ then
        register_expressions host rest registry
      else
        and_then (register host Expression no_options)
                 (register_expressions host rest) registry
  end.

Definition omitting (keys : list string) : RegisterOptions :=
  {| options_omit := Some keys; options_shallow := None |}.

Definition module_load (host : Host) (imports : Imports)
    : completion unit * Registry :=
  (and_then (register host Object no_options)
  (and_then (register host (Color imports) no_options)
  (and_then (register host (StylePropertyFunction imports) no_options)
  (and_then (register host (StyleExpression imports) (omitting ["_evaluator"]))
  (and_then (register host (StyleExpressionWithErrorHandling imports) (omitting ["_evaluator"]))
  (and_then (register host (ZoomDependentExpression imports) no_options)
  (and_then (register host (ZoomConstantExpression imports) no_options)
  (and_then (register host (CompoundExpression imports) (omitting ["_evaluate"]))
            (register_expressions host (expressions imports)))))))))) ∅.

(** ** Loops *)

(** [for (const item of input) serialized.push(body(item))] *)
Definition for_of (body : value → M value) : list value → M (list value) :=
  fix loop items :=
    match items with
    | [] => ret []
    | item :: rest =>
        let* s := body item in
        let* serialized := loop rest in
        ret (s :: serialized)
    end.

(** [for (const key in input) { ... }] over the own enumerable properties,
    with the object under construction as accumulator. *)
Definition for_in (body : string → value → properties_of → M properties_of)
    : properties_of → properties_of → M properties_of :=
  fix loop own properties :=
    match own with
    | [] => ret properties
    | (key, property) :: rest =>
        let* properties' := body key property properties in
        loop rest properties'
    end.

(** [input.map(f)] for an [f] that may throw. *)
Definition map_completion (f : value → completion value)
    : list value → completion (list value) :=
  fix loop items :=
    match items with
    | [] => Normal []
    | item :: rest =>
        r ← f item;
        results ← loop rest;
        Normal (r :: results)
    end.

(** [for (const key of Object.keys(properties)) { ... }] on an object: a key
    is listed once, so [properties[key]] is the value listed with it. *)
Definition for_keys (body : string → value → properties_of → completion properties_of)
    : properties_of → properties_of → completion properties_of :=
  fix loop own result :=
    match own with
    | [] => Normal result
    | (key, property) :: rest =>
        result' ← body key property result;
        loop rest result'
    end.

(** The same loop on an array, whose keys are its indices. *)
Definition for_indices (body : string → value → properties_of → completion properties_of)
    : list value → nat → properties_of → completion properties_of :=
  fix loop items i result :=
    match items with
    | [] => Normal result
    | item :: rest =>
        result' ← body (pretty i) item result;
        loop rest (S i) result'
    end.

(** ** The transport record [{name, properties}] *)

Definition record (name : string) (properties : properties_of) : value :=
  VObject (Some Object)
    [("name", VString name); ("properties", VObject (Some Object) properties)].

(** [typeof input] on the values no other rule takes. *)
Definition typeof_other (input : value) : string :=
  match input with
  | VFunction _ => "function"
  | VSymbol _ => "symbol"
  | _ => "object"
  end.

Definition entry_omit (e : Entry) : M (list string) :=
  match e with
  | Own d => ret (omit d)
  | Inherited => throw TypeError
  end.

Definition entry_shallow (e : Entry) : M (list string) :=
  match e with
  | Own d => ret (shallow d)
  | Inherited => throw TypeError
  end.

Section Engine.
Context (host : Host) (registry : Registry).

(** ** [serialize(input, transferables)] *)
Fixpoint serialize (input : value) {struct input} : M value :=
  match input with
  | VNull | VUndefined | VBoolean _ | VNumber _ | VString _
  | VBooleanObject _ _ | VNumberObject _ _ | VStringObject _ _
  | VDate _ _ | VRegExp _ _ _ =>
      ret input
  | VArrayBuffer b =>
      let* _ := push b in
      ret input
  | VView view =>
      let* _ := push (buffer view) in
      ret input
  | VArray items =>
      let* serialized := for_of (λ item, serialize item) items in
      ret (VArray serialized)
  | VObject constructor own =>
      match constructor with
      | None => throw TypeError
      | Some klass =>
          let name := name (class_of host klass) in
          if String.eqb name "" then
            throw (Error "can't serialize object of anonymous class")
          else
            match registry_get registry name with
            | None => throw (Error ("can't serialize unregistered class " +:+ name))
            | Some entry =>
                let* properties :=
                  match static_serialize (class_of host klass) with
                  | Some hook =>
                      let* s := hook input in
                      ret [("_serialized", s)]
                  | None =>
                      for_in (λ key property properties,
                        let* has := hasOwnProperty own key in
                        if negb has then ret properties
                        else
                          let* omit := entry_omit entry in
                          if bool_decide (key ∈ omit) then ret properties
                          else
                            let* shallow := entry_shallow entry in
                            if bool_decide (key ∈ shallow) then
                              ret (set key property properties)
                            else
                              let* s := serialize property in
                              ret (set key s properties)) own []
                  end in
                ret (record name properties)
            end
      end
  | VFunction _ | VSymbol _ =>
      throw (Error ("can't serialize object of type " +:+ typeof_other input))
  end.

(** ** [deserialize(input)] *)
Fixpoint deserialize (input : value) {struct input} : completion value :=
  match input with
  | VNull | VUndefined | VBoolean _ | VNumber _ | VString _
  | VBooleanObject _ _ | VNumberObject _ _ | VStringObject _ _
  | VDate _ _ | VRegExp _ _ _ | VArrayBuffer _ | VView _ =>
      Normal input
  | VArray items =>
      VArray <$> map_completion (λ i, deserialize i) items
  | VObject _ own =>
      let name := Get own "name" in
      if negb (ToBoolean name) then
        Throw (Error "can't deserialize object of anonymous class")
      else
        let name := ToPropertyKey host name in
        match registry_get registry name with
        | None => Throw TypeError
        | Some Inherited =>
            Throw (Error ("can't deserialize unregistered class " +:+ name))
        | Some (Own d) =>
            match static_deserialize (class_of host (klass d)) with
            | Some hook =>
                payload ← GetV (Get own "properties") "_serialized";
                hook payload
            | None =>
                let assign key property result :=
                  if bool_decide (key ∈ shallow d) then
                    Normal (set key property result)
                  else
                    r ← deserialize property;
                    Normal (set key r result) in
                VObject (Some (klass d)) <$>
                with_property "properties" (λ properties,
                  match properties with
                  | VUndefined | VNull => Throw TypeError
                  | VObject _ entries => for_keys assign entries []
                  | VArray items => for_indices assign items 0 []
                  | _ => Normal (own_of_exotic properties)
                  end) (Throw TypeError) own
            end
        end
  | VFunction _ | VSymbol _ =>
      Throw (Error ("can't deserialize object of type " +:+ typeof_other input))
  end.

(** The loop bodies, named so that statements can mention them: the body
    of the serializer's loop from the omit test on, its whole body, and the
    body of the deserializer's loop. *)
Definition serialize_property (entry : Entry)
    (key : string) (property : value) (properties : properties_of)
    : M properties_of :=
  let* omit := entry_omit entry in
  if bool_decide (key ∈ omit) then ret properties
  else
    let* shallow := entry_shallow entry in
    if bool_decide (key ∈ shallow) then ret (set key property properties)
    else
      let* s := serialize property in
      ret (set key s properties).

Definition serialize_own_property (own : properties_of) (entry : Entry)
    (key : string) (property : value) (properties : properties_of)
    : M properties_of :=
  let* has := hasOwnProperty own key in
  if negb has then ret properties
  else serialize_property entry key property properties.

Definition assign_property (d : Descriptor)
    (key : string) (property : value) (result : properties_of)
    : completion properties_of :=
  if bool_decide (key ∈ shallow d) then Normal (set key property result)
  else
    r ← deserialize property;
    Normal (set key r result).

End Engine.

(** * Notions used in the statements *)

(** The scalars of the transport format. *)
Definition scalar (v : value) : bool :=
  match v with
  | VNull | VBoolean _ | VNumber _ | VString _ | VDate _ _ | VRegExp _ _ _ => true
  | _ => false
  end.

(** The registry after further calls of [register], whether they succeed
    or throw. *)
Definition register_each (host : Host) (calls : list (Constructor * RegisterOptions))
    (registry : Registry) : Registry :=
  foldl (λ r call, (register host call.1 call.2 r).2) registry calls.




#[global] Instance ArrayBuffer_eq_dec : EqDecision ArrayBuffer.
Proof. solve_decision. Defined.


(** The property names that the engine, or the language on its behalf,
    reads on the object itself: the method called at each step of the loop
    of [serialize], the accessor that [target[key] = v] meets in
    [Object.prototype], and the property that [input.constructor] reads. *)
Definition special_keys : list string :=
  ["hasOwnProperty"; "__proto__"; "constructor"].

Definition ordinary_keys (own : properties_of) : bool :=
  forallb (λ kv, negb (bool_decide (kv.1 ∈ special_keys))) own.

(** No object in the value, at any depth, has an own property under one of
    these names. *)
Fixpoint ordinary (v : value) : bool :=
  match v with
  | VArray items => forallb ordinary items
  | VObject _ own => ordinary_keys own && forallb (λ kv, ordinary kv.2) own
  | _ => true
  end.

Section Specification.
Context (host : Host) (registry : gmap string Descriptor).

(** The items serialized one after the other, each starting from the
    transferables its predecessor left. *)
Inductive serialized_in_order
    : list value → Transferables → list value → Transferables → Prop :=
  | in_order_nil t : serialized_in_order [] t [] t
  | in_order_cons item s rest serialized t t1 t2 :
      serialize host registry item t = (Normal s, t1) →
      serialized_in_order rest t1 serialized t2 →
      serialized_in_order (item :: rest) t (s :: serialized) t2.

(** No object in the value belongs to a class with a static [serialize]
    hook. *)
Fixpoint hook_free (v : value) : bool :=
  match v with
  | VArray items => forallb hook_free items
  | VObject constructor own =>
      match constructor with
      | Some klass => bool_decide (static_serialize (class_of host klass) = None)
      | None => true
      end && forallb (λ kv, hook_free kv.2) own
  | _ => true
  end.

(** The property is neither omitted nor shallow: the serializer descends
    into it. *)
Definition traversed (d : Descriptor) (key : string) : bool :=
  negb (bool_decide (key ∈ omit d)) && negb (bool_decide (key ∈ shallow d)).

(** The owning buffers of the binary values that the traversal meets, one
    per occurrence, in the order met. *)
Fixpoint transferred (v : value) : list ArrayBuffer :=
  match v with
  | VArrayBuffer b => [b]
  | VView view => [buffer view]
  | VArray items => flat_map transferred items
  | VObject (Some klass) own =>
      match registry_get registry (name (class_of host klass)) with
      | Some (Own d) =>
          flat_map (λ kv, if traversed d kv.1 then transferred kv.2 else []) own
      | _ => []
      end
  | _ => []
  end.

(** The value without the properties that the registry omits, at every
    level the serializer descends to; an instance of a class with hooks is
    left to its hooks. *)
Fixpoint without_omitted (v : value) : value :=
  match v with
  | VArray items => VArray (map without_omitted items)
  | VObject (Some klass) own =>
      match static_serialize (class_of host klass),
            registry !! name (class_of host klass) with
      | None, Some d =>
          VObject (Some klass)
            (flat_map (λ kv,
               if bool_decide (kv.1 ∈ omit d) then []
               else if bool_decide (kv.1 ∈ shallow d) then [kv]
               else [(kv.1, without_omitted kv.2)]) own)
      | _, _ => v
      end
  | _ => v
  end.

(** Values that [serialize] and [deserialize] pass through. *)
Definition passthrough (v : value) : bool :=
  match v with
  | VArray _ | VObject _ _ | VFunction _ | VSymbol _ => false
  | _ => true
  end.

(** The collaborator contract, at every level: a scalar or binary value, a
    sequence of such values, or an instance of a registered class (built
    by the very constructor that was registered) that either has both
    hooks, the second undoing the first, or has none and whose properties
    are, unless omitted or shallow, such values again. *)
Inductive transferable : value → Prop :=
  | transferable_passthrough v :
      passthrough v = true → transferable v
  | transferable_array items :
      Forall transferable items → transferable (VArray items)
  | transferable_instance k d own :
      name (class_of host k) ≠ "" →
      registry !! name (class_of host k) = Some d →
      klass d = k →
      static_serialize (class_of host k) = None →
      static_deserialize (class_of host k) = None →
      NoDup own.*1 →
      Forall (λ kv, traversed d kv.1 = true → transferable kv.2) own →
      transferable (VObject (Some k) own)
  | transferable_hooked k d own hook hook' :
      name (class_of host k) ≠ "" →
      registry !! name (class_of host k) = Some d →
      klass d = k →
      static_serialize (class_of host k) = Some hook →
      static_deserialize (class_of host k) = Some hook' →
      (∀ t, ∃ payload t',
         hook (VObject (Some k) own) t = (Normal payload, t')
         ∧ hook' payload = Normal (VObject (Some k) own)) →
      transferable (VObject (Some k) own).


(** What a round trip leaves of the properties of an instance. *)
Definition kept (d : Descriptor) (own : list (string * value))
    : list (string * value) :=
  flat_map (λ kv,
    if bool_decide (kv.1 ∈ omit d) then []
    else if bool_decide (kv.1 ∈ shallow d) then [kv]
    else [(kv.1, without_omitted kv.2)]) own.

(** [serialize] returns on [v], and [deserialize] takes what it returns to
    [v] without its omitted properties. *)
Definition round_trips (v : value) : Prop :=
  ∀ t, ∃ s t',
    serialize host registry v t = (Normal s, t')
    ∧ deserialize host registry s = Normal (without_omitted v).

End Specification.

(** ** Objects by identity

    A [value] is a term: an array is its items, and two arrays with the
    same items are the same term.  To say which object a call returns, and
    what it does to the objects that exist, the call is run on a store: the
    objects of the program, each at its address, the argument among them.

    [serialize] returns [input] itself (lines 108, 115 and 123) or an
    object that it has created: the array [serialized] of line 127, or the
    record [{name, properties}] of line 168.  Its own writes go to the
    transferables and to what it has created ([serialized.push],
    [properties._serialized = ...], [properties[key] = ...]), so the store
    is left as it was, with a created object added once complete, at the
    next free address; a call that throws leaves nothing behind that can be
    reached.  The outcome is the completion, with the address of what is
    returned, and the store and the transferables afterwards. *)
Definition Store := list value.

Definition serialize_at (host : Host) (registry : gmap string Descriptor)
    (store : Store) (address : nat) (input : value) (t : Transferables)
    : completion nat * Store * Transferables :=
  match serialize host registry input t with
  | (Normal s, t') =>
      match input with
      | VArray _ | VObject _ _ => (Normal (length store), store ++ [s], t')
      | _ => (Normal address, store, t')
      end
  | (Throw e, t') => (Throw e, store, t')
  end.

(** ** Induction on values, through arrays and property lists *)

Section value_induction.
Context (P : value → Prop).
Context (Hleaf : ∀ v, (∀ items, v ≠ VArray items) →
                       (∀ c own, v ≠ VObject c own) → P v).
Context (Harray : ∀ items, Forall P items → P (VArray items)).
Context (Hobject : ∀ c own, Forall (λ kv, P kv.2) own → P (VObject c own)).

Fixpoint value_nested_ind (v : value) : P v :=
  match v with
  | VArray items =>
      Harray items
        ((fix all (l : list value) : Forall P l :=
            match l with
            | [] => Forall_nil_2 P
            | x :: r => Forall_cons_2 P x r (value_nested_ind x) (all r)
            end) items)
  | VObject c own =>
      Hobject c own
        ((fix all (l : list (string * value)) : Forall (λ kv, P kv.2) l :=
            match l with
            | [] => Forall_nil_2 _
            | kv :: r =>
                Forall_cons_2 (λ kv, P kv.2) kv r (value_nested_ind kv.2) (all r)
            end) own)
  | v => Hleaf v ltac:(done) ltac:(done)
  end.
End value_induction.

(** ** Further notions: data, registries, the wire format *)

(** Nothing but scalars, boxed scalars, binary values and arrays of them. *)
Fixpoint data_only (v : value) : bool :=
  match v with
  | VArray items => forallb data_only items
  | VObject _ _ | VFunction _ | VSymbol _ => false
  | _ => true
  end.

(** The primitive values that the setter of [__proto__] ignores: not an
    object and not [null]. *)
Definition primitive (v : value) : bool :=
  match v with
  | VUndefined | VBoolean _ | VNumber _ | VString _ => true
  | _ => false
  end.

(** What [register] maintains of the registry: no entry under the empty
    name or under a name that [Object.prototype] provides, and every
    descriptor stored under the name of its class. *)
Definition registry_ok (host : Host) (registry : gmap string Descriptor) : Prop :=
  ∀ n d, registry !! n = Some d →
    n ≠ "" ∧ (n ∉ Object_prototype) ∧ name (class_of host (klass d)) = n.

(** Two registries that differ in their omit lists at most. *)
Definition same_but_omit (registry registry' : gmap string Descriptor) : Prop :=
  ∀ n, option_Forall2 (λ d d', klass d = klass d' ∧ shallow d = shallow d')
         (registry !! n) (registry' !! n).

(** The classes that a successful load of the module must have registered,
    each with its options. *)
Definition module_registrations (imports : Imports)
    : list (Constructor * RegisterOptions) :=
  [ (Object, no_options);
    (Color imports, no_options);
    (StylePropertyFunction imports, no_options);
    (StyleExpression imports, omitting ["_evaluator"]);
    (StyleExpressionWithErrorHandling imports, omitting ["_evaluator"]);
    (ZoomDependentExpression imports, no_options);
    (ZoomConstantExpression imports, no_options);
    (CompoundExpression imports, omitting ["_evaluate"]) ].

(** The descriptor that [register] stores for a class and its options. *)
Definition descriptor_of (klass : Constructor) (options : RegisterOptions)
    : Descriptor :=
  {| klass := klass;
     omit := default [] (options_omit options);
     shallow := default [] (options_shallow options) |}.

(** [Q] holds of what the value directly contains. *)
Definition children_all (Q : value → Prop) (v : value) : Prop :=
  match v with
  | VArray items => Forall Q items
  | VObject _ own => Forall (λ kv, Q kv.2) own
  | _ => True
  end.

Section Wire.
Context (host : Host) (registry : gmap string Descriptor).

(** No object in the value, at any depth, has a property that its class
    omits. *)
Fixpoint keeps_all (v : value) : bool :=
  match v with
  | VArray items => forallb keeps_all items
  | VObject constructor own =>
      match constructor with
      | Some klass =>
          match registry !! name (class_of host klass) with
          | Some d => forallb (λ kv, negb (bool_decide (kv.1 ∈ omit d))) own
          | None => true
          end
      | None => true
      end && forallb (λ kv, keeps_all kv.2) own
  | _ => true
  end.

(** The transport values that the generic path produces: passthrough
    values, arrays of transport values, and records [{name, properties}]
    that name a registered class without hooks, stored under its own name,
    and list no omitted key, no key twice, and under every key that is not
    shallow a transport value again. *)
Inductive wire : value → Prop :=
  | wire_passthrough v :
      passthrough v = true → wire v
  | wire_array items :
      Forall wire items → wire (VArray items)
  | wire_record n d entries :
      n ≠ "" →
      registry !! n = Some d →
      name (class_of host (klass d)) = n →
      static_serialize (class_of host (klass d)) = None →
      static_deserialize (class_of host (klass d)) = None →
      NoDup entries.*1 →
      Forall (λ kv, kv.1 ∉ omit d) entries →
      Forall (λ kv, kv.1 ∉ shallow d → wire kv.2) entries →
      wire (record n entries).

(** [deserialize] returns on [s], and [serialize] takes what it returns
    back to [s]. *)
Definition comes_back (s : value) : Prop :=
  ∃ v, deserialize host registry s = Normal v
       ∧ ∀ t, ∃ t', serialize host registry v t = (Normal s, t').

End Wire.

(** ** A sample host

    The classes of a small program, used to run the engine on concrete
    inputs: the seven imported classes, one expression class, a class with
    the static hooks, an anonymous class and a class nobody registers. *)
Module Sample.

Definition plain (n : string) : Class :=
  {| name := n; static_serialize := None; static_deserialize := None |}.

(** A buffer-backed class in the style of [StructArray]: its hook
    transfers the [arrayBuffer] and nothing else. *)
Definition StructArray_serialize (input : value) : M value :=
  match input with
  | VObject _ own =>
      match Get own "arrayBuffer" with
      | VArrayBuffer b =>
          let* _ := push b in
          ret (VArrayBuffer b)
      | _ => throw TypeError
      end
  | _ => throw TypeError
  end.

Definition StructArray_deserialize (payload : value) : completion value :=
  Normal (VObject (Some (ClassRef 9)) [("arrayBuffer", payload)]).

Definition host : Host :=
  {| classes := λ ref,
       match ref with
       | 1 => plain "Color"
       | 2 => plain "StylePropertyFunction"
       | 3 => plain "StyleExpression"
       | 4 => plain "StyleExpressionWithErrorHandling"
       | 5 => plain "ZoomDependentExpression"
       | 6 => plain "ZoomConstantExpression"
       | 7 => plain "CompoundExpression"
       | 8 => plain "Literal"
       | 9 => {| name := "StructArray";
                 static_serialize := Some StructArray_serialize;
                 static_deserialize := Some StructArray_deserialize |}
       | 10 => plain ""
       | _ => plain "Unregistered"
       end;
     ToString := λ _, "[object Object]" |}.

Definition imports : Imports :=
  {| Color := ClassRef 1;
     StylePropertyFunction := ClassRef 2;
     StyleExpression := ClassRef 3;
     StyleExpressionWithErrorHandling := ClassRef 4;
     ZoomDependentExpression := ClassRef 5;
     ZoomConstantExpression := ClassRef 6;
     CompoundExpression := ClassRef 7;
     expressions := [("literal", ClassRef 8); ("compound", ClassRef 7)] |}.

(** The registry once the module is loaded and the program has registered
    its [StructArray]. *)
Definition registry : gmap string Descriptor :=
  (register host (ClassRef 9) no_options (module_load host imports).2).2.

Definition buffer1 : ArrayBuffer := {| buffer_ref := 1 |}.
Definition view1 : ArrayBufferView :=
  {| view_ref := 11; buffer := buffer1; elements := [] |}.

(** [{a: <StyleExpression {_evaluator: 1, x: 2}>}] *)
Definition expression : value :=
  VObject (Some (ClassRef 3)) [("_evaluator", VNumber 1); ("x", VNumber 2)].
Definition layer : value := VObject (Some Object) [("a", expression)].

End Sample.

(** ** Corner cases on the sample host

    The sample program with a class that is named like a member of
    [Object.prototype], and its registry with one more class that has an
    omit list and a shallow list. *)
Module Corner.

Definition host : Host :=
  {| classes := λ ref,
       match ref with
       | 0 => Sample.plain "toString"
       | _ => classes Sample.host ref
       end;
     ToString := ToString Sample.host |}.

(** [register(Tile, {omit: ['cache'], shallow: ['buffer', 'callback']})],
    for the class of reference 11. *)
Definition registry : gmap string Descriptor :=
  (register Sample.host (ClassRef 11)
     {| options_omit := Some ["cache"]; options_shallow := Some ["buffer"; "callback"] |}
     Sample.registry).2.

Definition tile : list (string * value) :=
  [("cache", VFunction 1);
   ("buffer", VArrayBuffer Sample.buffer1);
   ("callback", VFunction 2)].

(** The sample registry, had [StyleExpression] been registered with no
    omit list. *)
Definition registry_without_omit : gmap string Descriptor :=
  <["StyleExpression" := {| klass := ClassRef 3; omit := []; shallow := [] |}]>
    Sample.registry.

(** [{a: <StyleExpression {x: 2}>}] and its transport value. *)
Definition bare_layer : value :=
  VObject (Some Object) [("a", VObject (Some (ClassRef 3)) [("x", VNumber 2)])].
Definition bare_layer_record : value :=
  record "Object" [("a", record "StyleExpression" [("x", VNumber 2)])].

End Corner.

(** ** A host with more classes

    The sample program with three more classes: a tile with an omit list
    and a shallow list, a class whose omit list names [__proto__] and
    [hasOwnProperty], and a class whose [serialize] hook empties the array
    it is handed. *)
Module Worker.

(** [if (transferables) transferables.length = 0; return null;] *)
Definition Hoarder_serialize (input : value) : M value :=
  λ t, (Normal VNull, (λ _, []) <$> t).

Definition Hoarder_deserialize (payload : value) : completion value :=
  Normal (VObject (Some (ClassRef 14)) []).

Definition host : Host :=
  {| classes := λ ref,
       match ref with
       | 12 => Sample.plain "Tile"
       | 13 => Sample.plain "Bare"
       | 14 => {| name := "Hoarder";
                  static_serialize := Some Hoarder_serialize;
                  static_deserialize := Some Hoarder_deserialize |}
       | _ => classes Sample.host ref
       end;
     ToString := ToString Sample.host |}.

(** [register(Tile, {omit: ['cache'], shallow: ['buffer', 'callback']})],
    [register(Bare, {omit: ['__proto__', 'hasOwnProperty']})] and
    [register(Hoarder)], after the registrations of the sample program. *)
Definition registry : gmap string Descriptor :=
  (register host (ClassRef 14) no_options
  (register host (ClassRef 13) (omitting ["__proto__"; "hasOwnProperty"])
  (register host (ClassRef 12)
     {| options_omit := Some ["cache"];
        options_shallow := Some ["buffer"; "callback"] |}
     Sample.registry).2).2).2.

(** A tile: a cache that is omitted, a buffer and a callback that are
    copied as they are, an expression and a number that are traversed. *)
Definition tile_properties : list (string * value) :=
  [("cache", VFunction 1);
   ("buffer", VArrayBuffer Sample.buffer1);
   ("callback", VFunction 2);
   ("expression", Sample.expression);
   ("zoom", VNumber 3)].
Definition tile : value := VObject (Some (ClassRef 12)) tile_properties.


End Worker.

(** * Properties of the engine *)

(** ** Property lists *)

Lemma with_property_lookup {A} key (found : value → A) missing own :
  with_property key found missing own =
  match lookup_own key own with
  | Some v => found v
  | None => missing
  end.
Proof.
  induction own as [|[k v] rest IH]; simpl; [done|].
  by destruct (String.eqb k key).
Qed.

Lemma lookup_own_None key own :
  lookup_own key own = None ↔ key ∉ own.*1.
Proof.
  induction own as [|[k w] rest IH]; simpl.
  - split; [intros _; apply not_elem_of_nil | done].
  - rewrite not_elem_of_cons. destruct (String.eqb_spec k key) as [->|Hne].
    + split; [done | by intros [? _]].
    + rewrite IH. split; [by split | by intros [_ ?]].
Qed.

Lemma define_own_fresh key v properties :
  lookup_own key properties = None →
  define_own key v properties = properties ++ [(key, v)].
Proof.
  induction properties as [|[k w] rest IH]; simpl; [done|].
  destruct (String.eqb k key); [done|]. intros H. by rewrite IH.
Qed.

Lemma set_fresh key v properties :
  lookup_own key properties = None →
  key ≠ "__proto__" →
  set key v properties = properties ++ [(key, v)].
Proof.
  intros Hfresh Hkey. unfold set.
  destruct (String.eqb_spec key "__proto__"); [done|]. by apply define_own_fresh.
Qed.

Lemma set_proto v properties : set "__proto__" v properties = properties.
Proof. reflexivity. Qed.

Lemma not_callable_nonempty own : not_callable own = true → own ≠ [].
Proof. by intros H ->. Qed.

Lemma not_callable_absent own :
  lookup_own "hasOwnProperty" own = None → not_callable own = false.
Proof. unfold not_callable. by intros ->. Qed.

Lemma ordinary_keys_spec own :
  ordinary_keys own = true ↔ ∀ key, key ∈ special_keys → key ∉ own.*1.
Proof.
  unfold ordinary_keys. rewrite forallb_forall. split.
  - intros H key Hkey Hin. apply list_elem_of_fmap in Hin as ([k v] & -> & Hin).
    apply list_elem_of_In, H in Hin. simpl in Hin.
    apply negb_true_iff, bool_decide_eq_false in Hin. done.
  - intros H [k v] Hin. apply negb_true_iff, bool_decide_eq_false. simpl.
    intros Hk. apply (H k Hk). apply list_elem_of_fmap. exists (k, v).
    split; [done|]. by apply list_elem_of_In.
Qed.

Lemma ordinary_keys_lookup own key :
  ordinary_keys own = true → key ∈ special_keys → lookup_own key own = None.
Proof.
  intros H Hkey. apply lookup_own_None. by apply (proj1 (ordinary_keys_spec own)).
Qed.

Lemma ordinary_keys_not_callable own :
  ordinary_keys own = true → not_callable own = false.
Proof.
  intros H. apply not_callable_absent, ordinary_keys_lookup; [done|].
  set_solver.
Qed.

Lemma ordinary_keys_proto own :
  ordinary_keys own = true → "__proto__" ∉ own.*1.
Proof. intros H. apply (proj1 (ordinary_keys_spec own) H). set_solver. Qed.

Lemma ordinary_keys_constructor own :
  ordinary_keys own = true → "constructor" ∉ own.*1.
Proof. intros H. apply (proj1 (ordinary_keys_spec own) H). set_solver. Qed.

Lemma ordinary_keys_same own own' :
  own'.*1 = own.*1 → ordinary_keys own = true → ordinary_keys own' = true.
Proof.
  intros E H. apply ordinary_keys_spec. intros key Hkey. rewrite E.
  by apply (proj1 (ordinary_keys_spec own)).
Qed.

Lemma ordinary_keys_filter (P : string * value → Prop) `{∀ kv, Decision (P kv)} own :
  ordinary_keys own = true → ordinary_keys (filter P own) = true.
Proof.
  unfold ordinary_keys. rewrite !forallb_forall. intros H' kv Hin.
  apply H'. apply list_elem_of_In. apply list_elem_of_In in Hin.
  by apply list_elem_of_filter in Hin as [_ ?].
Qed.

Lemma ordinary_object c own :
  ordinary (VObject c own) = true →
  ordinary_keys own = true ∧ Forall (λ kv, ordinary kv.2 = true) own.
Proof.
  simpl. intros [H1 H2]%andb_true_iff. split; [done|].
  apply Forall_forall. intros kv Hin. rewrite forallb_forall in H2.
  by apply H2, list_elem_of_In.
Qed.

Lemma ordinary_array items :
  ordinary (VArray items) = true → Forall (λ item, ordinary item = true) items.
Proof.
  simpl. intros H. apply Forall_forall. intros item Hin.
  rewrite forallb_forall in H. by apply H, list_elem_of_In.
Qed.

(** ** Unfolding the two functions on objects *)

Section Unfolding.
Context (host : Host) (registry : gmap string Descriptor).

Lemma for_in_own_test own0 entry own acc t :
  for_in (serialize_own_property host registry own0 entry) own acc t =
  if not_callable own0 then
    match own with
    | [] => (Normal acc, t)
    | _ :: _ => (Throw TypeError, t)
    end
  else for_in (serialize_property host registry entry) own acc t.
Proof.
  destruct (not_callable own0) eqn:Hcall.
  - destruct own as [|[key p] rest]; [done|].
    simpl. unfold bind at 1, serialize_own_property, hasOwnProperty.
    by rewrite Hcall.
  - revert acc t. induction own as [|[key p] rest IH]; intros acc t; [done|].
    simpl. unfold bind at 1. unfold serialize_own_property at 1, hasOwnProperty.
    rewrite Hcall. unfold bind at 1. simpl. unfold bind.
    destruct (serialize_property host registry entry key p acc t) as [[acc'|e] t1];
      [apply IH | done].
Qed.

(** The loop over the own properties throws at the first key when
    [input.hasOwnProperty] is not callable, and such an input has a key. *)
Lemma serialize_object klass own t :
  serialize host registry (VObject (Some klass) own) t =
  (let name := name (class_of host klass) in
   if String.eqb name "" then
     throw (Error "can't serialize object of anonymous class")
   else
     match registry_get registry name with
     | None => throw (Error ("can't serialize unregistered class " +:+ name))
     | Some entry =>
         let* properties :=
           match static_serialize (class_of host klass) with
           | Some hook =>
               let* s := hook (VObject (Some klass) own) in
               ret [("_serialized", s)]
           | None =>
               if not_callable own then throw TypeError
               else for_in (serialize_property host registry entry) own []
           end in
         ret (record name properties)
     end) t.
Proof.
  change (serialize host registry (VObject (Some klass) own) t) with
    ((let name := name (class_of host klass) in
      if String.eqb name "" then
        throw (Error "can't serialize object of anonymous class")
      else
        match registry_get registry name with
        | None => throw (Error ("can't serialize unregistered class " +:+ name))
        | Some entry =>
            let* properties :=
              match static_serialize (class_of host klass) with
              | Some hook =>
                  let* s := hook (VObject (Some klass) own) in
                  ret [("_serialized", s)]
              | None =>
                  for_in (serialize_own_property host registry own entry) own []
              end in
            ret (record name properties)
        end) t).
  simpl. destruct (String.eqb _ _); [done|].
  destruct (registry_get _ _) as [entry|]; [|done].
  destruct (static_serialize _); [done|].
  unfold bind. rewrite for_in_own_test.
  destruct (not_callable own) eqn:Hcall; [|done].
  by destruct own.
Qed.

Lemma deserialize_object c own :
  deserialize host registry (VObject c own) =
  let name := Get own "name" in
  if negb (ToBoolean name) then
    Throw (Error "can't deserialize object of anonymous class")
  else
    let name := ToPropertyKey host name in
    match registry_get registry name with
    | None => Throw TypeError
    | Some Inherited =>
        Throw (Error ("can't deserialize unregistered class " +:+ name))
    | Some (Own d) =>
        match static_deserialize (class_of host (klass d)) with
        | Some hook =>
            payload ← GetV (Get own "properties") "_serialized";
            hook payload
        | None =>
            VObject (Some (klass d)) <$>
            match lookup_own "properties" own with
            | None | Some VUndefined | Some VNull => Throw TypeError
            | Some (VObject _ entries) =>
                for_keys (assign_property host registry d) entries []
            | Some (VArray items) =>
                for_indices (assign_property host registry d) items 0 []
            | Some properties => Normal (own_of_exotic properties)
            end
        end
    end.
Proof.
  simpl. destruct (negb _); [done|].
  destruct (registry_get _ _) as [[d|]|]; try done.
  destruct (static_deserialize _); [done|].
  rewrite with_property_lookup.
  destruct (lookup_own "properties" own) as [[]|]; done.
Qed.

Lemma registry_get_registered name d :
  registry !! name = Some d → registry_get registry name = Some (Own d).
Proof. unfold registry_get. by intros ->. Qed.

Lemma eqb_empty_false (s : string) : s ≠ "" → String.eqb s "" = false.
Proof. by destruct (String.eqb_spec s ""). Qed.

(** ** Scalars *)

(** C6. A null, boolean, number, string, date or regular expression is
    returned as it is by [serialize], which leaves the transferables
    untouched, and by [deserialize]. *)
Theorem scalar_passthrough (v : value) (t : Transferables) :
  scalar v = true →
  serialize host registry v t = (Normal v, t) ∧
  deserialize host registry v = Normal v.
Proof. destruct v; (discriminate || done). Qed.

(** ** Rejections *)

(** The serializer's half of anonymous-class rejection: a constructor whose
    name is empty is refused before anything is pushed. *)
Lemma serialize_anonymous klass own t :
  name (class_of host klass) = "" →
  serialize host registry (VObject (Some klass) own) t
    = (Throw (Error "can't serialize object of anonymous class"), t).
Proof. intros Hname. rewrite serialize_object. simpl. by rewrite Hname. Qed.

(** The deserializer's half: a record whose [name] is missing, [undefined],
    [null], the empty string or falsy in any other way. *)
Lemma deserialize_anonymous c fields :
  ToBoolean (Get fields "name") = false →
  deserialize host registry (VObject c fields)
    = Throw (Error "can't deserialize object of anonymous class").
Proof. intros Hname. rewrite deserialize_object. simpl. by rewrite Hname. Qed.

(** C8, where the code departs from it.  An object that has no constructor
    at all, such as [Object.create(null)] makes, carries no discoverable
    name.  [serialize] does not reach its anonymous-class error on it:
    [input.constructor] is [undefined], and reading [klass.name] throws a
    [TypeError]. *)
Theorem constructorless_object_TypeError
    (own : list (string * value)) (t : Transferables) :
  lookup_own "constructor" own = None →
  serialize host registry (VObject None own) t = (Throw TypeError, t)
  ∧ serialize host registry (VObject None own) t
    ≠ (Throw (Error "can't serialize object of anonymous class"), t).
Proof. intros _. split; [reflexivity | discriminate]. Qed.

(** The serializer's half of unregistered-class rejection: the error is
    raised before anything is pushed. *)
Lemma serialize_unregistered klass own t :
  name (class_of host klass) ≠ "" →
  registry_get registry (name (class_of host klass)) = None →
  serialize host registry (VObject (Some klass) own) t
    = (Throw (Error ("can't serialize unregistered class "
                       +:+ name (class_of host klass))), t).
Proof.
  intros Hname Hget. rewrite serialize_object. simpl.
  by rewrite eqb_empty_false, Hget.
Qed.

(** The deserializer's half: [registry[name]] is [undefined], and
    destructuring it throws a [TypeError] before the test of [klass]. *)
Lemma deserialize_unregistered c fields name :
  lookup_own "name" fields = Some (VString name) →
  name ≠ "" →
  registry_get registry name = None →
  deserialize host registry (VObject c fields) = Throw TypeError.
Proof.
  intros Hfield Hname Hget. rewrite deserialize_object. unfold Get.
  rewrite Hfield. simpl. by rewrite eqb_empty_false, Hget.
Qed.

(** ** Custom hooks *)

(** C5. For a registered class with a static [serialize] hook, [serialize]
    is the hook applied to the instance and the transferables, its result
    stored alone under [_serialized]; the instance's own properties play no
    part.  For a record naming a class with a static [deserialize] hook,
    [deserialize] is the hook applied to the [_serialized] payload. *)
Theorem custom_hooks_bypass
    (k : Constructor) (d : Descriptor) (hook : value → M value)
    (own : list (string * value)) (t : Transferables)
    (c c' : option Constructor) (fields payload : list (string * value))
    (n : string) (d' : Descriptor) (hook' : value → completion value) :
  name (class_of host k) ≠ "" →
  registry !! name (class_of host k) = Some d →
  static_serialize (class_of host k) = Some hook →
  lookup_own "name" fields = Some (VString n) →
  lookup_own "properties" fields = Some (VObject c' payload) →
  n ≠ "" →
  registry !! n = Some d' →
  static_deserialize (class_of host (klass d')) = Some hook' →
  serialize host registry (VObject (Some k) own) t =
    match hook (VObject (Some k) own) t with
    | (Normal s, t') =>
        (Normal (record (name (class_of host k)) [("_serialized", s)]), t')
    | (Throw e, t') => (Throw e, t')
    end
  ∧ deserialize host registry (VObject c fields) = hook' (Get payload "_serialized").
Proof.
  intros Hname Hreg Hhook Hn Hp Hn' Hreg' Hhook'. split.
  - rewrite serialize_object. simpl.
    rewrite eqb_empty_false, (registry_get_registered _ d), Hhook by done.
    unfold bind. by destruct (hook _ t) as [[s|e] t'].
  - rewrite deserialize_object. unfold Get. rewrite Hn, Hp. simpl.
    by rewrite eqb_empty_false, (registry_get_registered _ d'), Hhook'.
Qed.

End Unfolding.

(** ** Registration *)

Lemma register_keeps host k options (registry : gmap string Descriptor) n d :
  registry !! n = Some d → (register host k options registry).2 !! n = Some d.
Proof.
  intros Hn. unfold register.
  destruct (String.eqb _ _); [done|].
  destruct (registry_get registry _) eqn:Hget; [done|]. simpl.
  rewrite lookup_insert_ne; [done|]. intros E.
  unfold registry_get in Hget. by rewrite E, Hn in Hget.
Qed.

Lemma register_each_keeps host calls (registry : gmap string Descriptor) n d :
  registry !! n = Some d → register_each host calls registry !! n = Some d.
Proof.
  revert registry. induction calls as [|call calls IH]; intros registry Hn; [done|].
  simpl. apply IH. by apply register_keeps.
Qed.

(** C4. Once [register] has succeeded for a class, registering a class of
    the same name, at once or after any further registrations, fails with
    the "already registered" assertion and leaves the registry as it was,
    with the descriptor that the first call stored. *)
Theorem duplicate_registration_rejected
    (host : Host) (klass1 klass2 : Constructor)
    (options1 options2 : RegisterOptions)
    (later : list (Constructor * RegisterOptions))
    (registry0 registry1 : gmap string Descriptor) :
  register host klass1 options1 registry0 = (Normal tt, registry1) →
  name (class_of host klass2) = name (class_of host klass1) →
  register host klass2 options2 (register_each host later registry1)
    = (Throw (AssertionError
                (Some (name (class_of host klass1) +:+ " is already registered."))),
       register_each host later registry1)
  ∧ register_each host later registry1 !! name (class_of host klass1)
    = Some {| klass := klass1;
              omit := default [] (options_omit options1);
              shallow := default [] (options_shallow options1) |}.
Proof.
  intros H1 Hsame.
  assert (registry1 !! name (class_of host klass1)
          = Some {| klass := klass1;
                    omit := default [] (options_omit options1);
                    shallow := default [] (options_shallow options1) |}
          ∧ String.eqb (name (class_of host klass1)) "" = false) as [Hfirst Hname].
  { unfold register in H1.
    destruct (String.eqb (name (class_of host klass1)) ""); [done|].
    destruct (registry_get registry0 _); [done|].
    injection H1 as <-. by rewrite lookup_insert_eq. }
  apply (register_each_keeps host later) in Hfirst. split; [|done].
  unfold register. rewrite Hsame, Hname. unfold registry_get. by rewrite Hfirst.
Qed.

(** ** Sequences *)

Section Sequences.
Context (host : Host) (registry : gmap string Descriptor).





End Sequences.

(** ** The transferables: frame and contents *)









Section Transferables.
Context (host : Host) (registry : gmap string Descriptor).





(** What a call run on a store returns is what the call returns, found at
    the address handed back. *)
Lemma serialize_at_serialize (store : Store) (address : nat) input t :
  store !! address = Some input →
  match serialize host registry input t with
  | (Normal s, t') =>
      ∃ address' store',
        serialize_at host registry store address input t
          = (Normal address', store', t')
        ∧ store' !! address' = Some s
  | (Throw e, t') =>
      serialize_at host registry store address input t = (Throw e, store, t')
  end.
Proof.
  intros Hstored. unfold serialize_at.
  destruct (serialize host registry input t) as [[s|e] t'] eqn:Hs; [|done].
  destruct input;
    try (exists (length store), (store ++ [s]);
         split; [done|]; by apply list_lookup_middle);
    try discriminate Hs;
    injection Hs as <- <-; by exists address, store.
Qed.


End Transferables.

Section Collection.
Context (host : Host) (registry : gmap string Descriptor).






End Collection.

(** ** Restoring the properties of a record *)

Section Restoring.
Context (host : Host) (registry : gmap string Descriptor).

Lemma NoDup_keys_fresh (acc : list (string * value)) key (rest : list string) :
  NoDup (acc.*1 ++ key :: rest) → lookup_own key acc = None.
Proof.
  intros H. apply lookup_own_None. apply NoDup_app in H as (_ & H & _).
  intros Hin. apply (H key Hin). left.
Qed.

Lemma NoDup_keys_step (acc : list (string * value)) key v (rest : list string) :
  NoDup (acc.*1 ++ key :: rest) → NoDup ((acc ++ [(key, v)]).*1 ++ rest).
Proof. intros H. by rewrite fmap_app, <- app_assoc. Qed.

Lemma NoDup_keys_skip (acc : list (string * value)) key (rest : list string) :
  NoDup (acc.*1 ++ key :: rest) → NoDup (acc.*1 ++ rest).
Proof.
  intros H. apply NoDup_app in H as (H1 & H2 & H3).
  apply NoDup_cons in H3 as [_ H3]. apply NoDup_app. split_and!; [done | | done].
  intros x Hx Hin. apply (H2 x Hx). by right.
Qed.

Lemma for_keys_cons body key p rest acc :
  for_keys body ((key, p) :: rest) acc
  = body key p acc ≫= λ result, for_keys body rest result.
Proof. reflexivity. Qed.

Lemma assign_property_eq d key p acc :
  assign_property host registry d key p acc =
  if bool_decide (key ∈ shallow d) then Normal (set key p acc)
  else deserialize host registry p ≫= λ r, Normal (set key r acc).
Proof. reflexivity. Qed.



Lemma deserialize_record c c' fields n d entries :
  lookup_own "name" fields = Some (VString n) →
  lookup_own "properties" fields = Some (VObject c' entries) →
  n ≠ "" →
  registry !! n = Some d →
  deserialize host registry (VObject c fields) =
  match static_deserialize (class_of host (klass d)) with
  | Some hook => hook (Get entries "_serialized")
  | None =>
      VObject (Some (klass d)) <$>
      for_keys (assign_property host registry d) entries []
  end.
Proof.
  intros Hn Hp Hne Hreg. rewrite deserialize_object. unfold Get.
  rewrite Hn, Hp. simpl.
  rewrite eqb_empty_false, (registry_get_registered _ _ d) by done.
  by destruct (static_deserialize _).
Qed.


End Restoring.

(** ** Round trip *)

Section RoundTrip.
Context (host : Host) (registry : gmap string Descriptor).

Lemma for_in_cons body key p rest acc :
  for_in body ((key, p) :: rest) acc
  = let* properties := body key p acc in for_in body rest properties.
Proof. reflexivity. Qed.

Lemma serialize_property_eq d key p acc :
  serialize_property host registry (Own d) key p acc =
  if bool_decide (key ∈ omit d) then ret acc
  else if bool_decide (key ∈ shallow d) then ret (set key p acc)
  else let* s := serialize host registry p in ret (set key s acc).
Proof.
  unfold serialize_property. simpl. unfold bind at 1, ret at 1.
  destruct (bool_decide (key ∈ omit d)); [done|].
  unfold bind at 1, ret at 1. done.
Qed.

Lemma round_trip_properties d own :
  Forall (λ kv, traversed d kv.1 = true → round_trips host registry kv.2) own →
  "__proto__" ∉ own.*1 →
  ∀ acc acc' t,
    NoDup (acc.*1 ++ own.*1) →
    acc'.*1 = acc.*1 →
    ∃ ps t',
      for_in (serialize_property host registry (Own d)) own acc t
        = (Normal (acc ++ ps), t')
      ∧ for_keys (assign_property host registry d) ps acc'
        = Normal (acc' ++ kept host registry d own).
Proof.
  induction 1 as [|[key p] rest Hp _ IH]; intros Hproto acc acc' t Hnodup Hkeys.
  - exists [], t. by rewrite !app_nil_r.
  - csimpl in Hnodup. csimpl in Hproto.
    apply not_elem_of_cons in Hproto as [Hkey Hproto]. specialize (IH Hproto).
    assert (key ≠ "__proto__") as Hkey' by done.
    pose proof (NoDup_keys_fresh _ _ _ Hnodup) as Hfresh.
    assert (lookup_own key acc' = None) as Hfresh'.
    { apply lookup_own_None. rewrite Hkeys. by apply lookup_own_None. }
    rewrite for_in_cons, serialize_property_eq.
    unfold kept, traversed in *. simpl in *.
    destruct (bool_decide (key ∈ omit d)); simpl.
    { apply IH; [by eapply NoDup_keys_skip | done]. }
    destruct (bool_decide (key ∈ shallow d)) eqn:Hshallow; simpl.
    + destruct (IH (acc ++ [(key, p)]) (acc' ++ [(key, p)]) t) as (ps & t' & H1 & H2).
      { by apply NoDup_keys_step. }
      { by rewrite !fmap_app, Hkeys. }
      exists ((key, p) :: ps), t'. unfold bind, ret.
      rewrite (set_fresh _ _ _ Hfresh Hkey'), H1, <- app_assoc. split; [done|].
      rewrite for_keys_cons, assign_property_eq, Hshallow. simpl.
      by rewrite (set_fresh _ _ _ Hfresh' Hkey'), H2, <- app_assoc.
    + destruct (Hp eq_refl t) as (s & t1 & Hs & Hd).
      destruct (IH (acc ++ [(key, s)])
                   (acc' ++ [(key, without_omitted host registry p)]) t1)
        as (ps & t' & H1 & H2).
      { by apply NoDup_keys_step. }
      { by rewrite !fmap_app, Hkeys. }
      exists ((key, s) :: ps), t'. unfold bind at 1. unfold bind at 1.
      rewrite Hs. unfold ret.
      rewrite (set_fresh _ _ _ Hfresh Hkey'), H1, <- app_assoc. split; [done|].
      rewrite for_keys_cons, assign_property_eq, Hshallow, Hd. simpl.
      by rewrite (set_fresh _ _ _ Hfresh' Hkey'), H2, <- app_assoc.
Qed.

Lemma round_trip_items items :
  Forall (round_trips host registry) items →
  ∀ t, ∃ ss t',
    for_of (serialize host registry) items t = (Normal ss, t')
    ∧ map_completion (deserialize host registry) ss
      = Normal (map (without_omitted host registry) items).
Proof.
  induction 1 as [|item rest Hitem _ IH]; intros t.
  - by exists [], t.
  - destruct (Hitem t) as (s & t1 & Hs & Hd).
    destruct (IH t1) as (ss & t' & Hss & Hds).
    exists (s :: ss), t'. simpl. unfold bind at 1. rewrite Hs.
    unfold bind. rewrite Hss. split; [done|]. by rewrite Hd, Hds.
Qed.

Lemma round_trip_value v :
  transferable host registry v → ordinary v = true → round_trips host registry v.
Proof.
  induction v as [v Harr Hobj | items IH | c own IH] using value_nested_ind;
    intros Hv Hordinary.
  - intros t.
    destruct v; try (by destruct (Harr items));
      try (by destruct (Hobj constructor own)); try (by inversion Hv);
      eexists _, _; (split; [reflexivity | done]).
  - inversion Hv as [v' Hpass|items' Hitems| |]; subst; [done|].
    intros t. destruct (round_trip_items items) with (t := t)
      as (ss & t' & Hss & Hds).
    { apply ordinary_array in Hordinary.
      rewrite Forall_forall in IH, Hitems, Hordinary. apply Forall_forall. auto. }
    exists (VArray ss), t'. split.
    + change (serialize host registry (VArray items))
        with (bind (for_of (serialize host registry) items)
                   (λ serialized, ret (VArray serialized))).
      unfold bind. by rewrite Hss.
    + change (deserialize host registry (VArray ss))
        with (VArray <$> map_completion (deserialize host registry) ss).
      by rewrite Hds.
  - inversion Hv as [v' Hpass| |k d own' Hname Hreg Hklass Hs Hd Hnodup Hown
                    |k d own' hook hook' Hname Hreg Hklass Hs Hd Hinverse];
      subst; [done| |]; intros t;
      apply ordinary_object in Hordinary as [Hkeys Hordinary].
    + destruct (round_trip_properties d own) with (acc := @nil (string * value))
        (acc' := @nil (string * value)) (t := t) as (ps & t' & H1 & H2);
        [|by apply ordinary_keys_proto|done|done|].
      { rewrite Forall_forall in IH, Hown, Hordinary. apply Forall_forall.
        intros kv Hin Htrav. apply IH; auto. }
      exists (record (name (class_of host (klass d))) ps), t'. split.
      * rewrite serialize_object. simpl.
        rewrite eqb_empty_false, (registry_get_registered _ _ d), Hs by done.
        rewrite (ordinary_keys_not_callable _ Hkeys).
        unfold bind. simpl in H1. by rewrite H1.
      * unfold record.
        rewrite (deserialize_record _ _ _ (Some Object) _
                   (name (class_of host (klass d))) d ps) by done.
        rewrite Hd. simpl in H2. rewrite H2. simpl.
        by rewrite Hs, Hreg.
    + destruct (Hinverse t) as (payload & t' & H1 & H2).
      exists (record (name (class_of host (klass d))) [("_serialized", payload)]), t'.
      split.
      * rewrite serialize_object. simpl.
        rewrite eqb_empty_false, (registry_get_registered _ _ d), Hs by done.
        unfold bind. by rewrite H1.
      * unfold record.
        rewrite (deserialize_record _ _ _ (Some Object) _
                   (name (class_of host (klass d))) d
                   [("_serialized", payload)]) by done.
        rewrite Hd. unfold Get. simpl. by rewrite H2, Hs.
Qed.

Lemma lookup_own_kept d own key :
  NoDup own.*1 →
  lookup_own key (kept host registry d own) =
  if bool_decide (key ∈ omit d) then None
  else (λ p, if bool_decide (key ∈ shallow d) then p
             else without_omitted host registry p) <$> lookup_own key own.
Proof.
  induction own as [|[k p] rest IH]; csimpl; intros Hnodup.
  - by destruct (bool_decide _).
  - apply NoDup_cons in Hnodup as [Hk Hnodup]. specialize (IH Hnodup).
    unfold kept in *. simpl.
    destruct (String.eqb_spec k key) as [->|Hne].
    + destruct (bool_decide (key ∈ omit d)) eqn:Homit; simpl.
      * by rewrite IH.
      * destruct (bool_decide (key ∈ shallow d)); simpl;
          by rewrite String.eqb_refl.
    + destruct (bool_decide (k ∈ omit d)); simpl; [done|].
      destruct (bool_decide (k ∈ shallow d)); simpl;
        by destruct (String.eqb_spec k key).
Qed.

(** C1, as the code has it.  For an instance of a registered class that
    meets the collaborator contract at every level and in which no object
    has an own property named [hasOwnProperty], [__proto__] or
    [constructor], [serialize] returns, and [deserialize] of what it
    returns is the instance without the properties that the registry omits,
    at every level the serializer descends to.  For a class without hooks:
    a key in the omit list is absent from the result, and any other key
    holds the original value if the key is shallow, and otherwise the
    original value without its own omitted properties.  For a class with
    the two hooks the result is what the hooks make of the instance: the
    instance itself, omit list or not. *)
Theorem round_trip_modulo_omitted
    (k : Constructor) (d : Descriptor) (own : list (string * value))
    (t : Transferables) :
  transferable host registry (VObject (Some k) own) →
  ordinary (VObject (Some k) own) = true →
  registry !! name (class_of host k) = Some d →
  ∃ s t' own',
    serialize host registry (VObject (Some k) own) t = (Normal s, t')
    ∧ deserialize host registry s = Normal (VObject (Some k) own')
    ∧ VObject (Some k) own' = without_omitted host registry (VObject (Some k) own)
    ∧ (static_serialize (class_of host k) = None →
         (∀ key, key ∈ omit d → lookup_own key own' = None)
         ∧ (∀ key, key ∉ omit d →
              lookup_own key own' =
              (λ p, if bool_decide (key ∈ shallow d) then p
                    else without_omitted host registry p) <$> lookup_own key own))
    ∧ (static_serialize (class_of host k) ≠ None → own' = own).
Proof.
  intros Hv Hordinary Hreg.
  destruct (round_trip_value _ Hv Hordinary t) as (s & t' & H1 & H2).
  destruct (static_serialize (class_of host k)) as [hook|] eqn:Hs.
  - exists s, t', own.
    assert (without_omitted host registry (VObject (Some k) own)
            = VObject (Some k) own) as E.
    { simpl. by rewrite Hs. }
    rewrite E in H2. by split_and!.
  - exists s, t', (kept host registry d own).
    assert (without_omitted host registry (VObject (Some k) own)
            = VObject (Some k) (kept host registry d own)) as E.
    { simpl. by rewrite Hs, Hreg. }
    rewrite E in H2. split_and!; [done..| |done].
    intros _. split.
    + intros key Hkey. rewrite lookup_own_kept.
      * by rewrite bool_decide_eq_true_2.
      * inversion Hv; subst; [done|done|congruence].
    + intros key Hkey. rewrite lookup_own_kept.
      * by rewrite bool_decide_eq_false_2.
      * inversion Hv; subst; [done|done|congruence].
Qed.

End RoundTrip.

(** * The engine on the sample host *)

Lemma Sample_registered_StyleExpression :
  Sample.registry !! "StyleExpression"
  = Some {| klass := ClassRef 3; omit := ["_evaluator"]; shallow := [] |}.
Proof. vm_compute. reflexivity. Qed.

Lemma Sample_registered_StructArray :
  Sample.registry !! "StructArray"
  = Some {| klass := ClassRef 9; omit := []; shallow := [] |}.
Proof. vm_compute. reflexivity. Qed.

Lemma Sample_registered_Object :
  Sample.registry !! "Object"
  = Some {| klass := Object; omit := []; shallow := [] |}.
Proof. vm_compute. reflexivity. Qed.


Lemma Sample_layer_transferable :
  transferable Sample.host Sample.registry Sample.layer.
Proof.
  eapply transferable_instance;
    [done | apply Sample_registered_Object | done | done | done | | ].
  { apply NoDup_singleton. }
  constructor; [|constructor]. intros _.
  eapply transferable_instance;
    [done | apply Sample_registered_StyleExpression | done | done | done | | ].
  { apply (bool_decide_unpack _). vm_compute. reflexivity. }
  repeat constructor.
Qed.

Lemma scalar_passthrough_witness :
  scalar (VString "mapbox") = true
  ∧ serialize Sample.host Sample.registry (VString "mapbox") (Some [])
    = (Normal (VString "mapbox"), Some [])
  ∧ deserialize Sample.host Sample.registry (VString "mapbox")
    = Normal (VString "mapbox").
Proof.
  split; [reflexivity|].
  apply (scalar_passthrough Sample.host Sample.registry). reflexivity.
Defined.

Lemma constructorless_object_TypeError_witness :
  serialize Sample.host Sample.registry (VObject None [("x", VNumber 1)]) (Some [])
    = (Throw TypeError, Some [])
  ∧ serialize Sample.host Sample.registry (VObject None [("x", VNumber 1)]) (Some [])
    ≠ (Throw (Error "can't serialize object of anonymous class"), Some []).
Proof.
  apply (constructorless_object_TypeError Sample.host Sample.registry
           [("x", VNumber 1)] (Some [])).
  reflexivity.
Defined.

(** C2, where the code departs from it.  A record naming a class that was
    never registered makes [deserialize] throw a [TypeError], from
    destructuring [registry[name]], and not its unregistered-class error. *)
Theorem unregistered_record_TypeError :
  Sample.registry !! "Foo" = None
  ∧ deserialize Sample.host Sample.registry (record "Foo" []) = Throw TypeError
  ∧ deserialize Sample.host Sample.registry (record "Foo" [])
    ≠ Throw (Error "can't deserialize unregistered class Foo").
Proof. vm_compute. split_and!; done. Qed.

Lemma duplicate_registration_rejected_witness :
  register Sample.host (ClassRef 12) (omitting ["cache"])
    (register_each Sample.host [(ClassRef 1, no_options); (ClassRef 11, omitting ["x"])]
       (register Sample.host (ClassRef 11) no_options ∅).2)
  = (Throw (AssertionError (Some "Unregistered is already registered.")),
     register_each Sample.host [(ClassRef 1, no_options); (ClassRef 11, omitting ["x"])]
       (register Sample.host (ClassRef 11) no_options ∅).2)
  ∧ register_each Sample.host [(ClassRef 1, no_options); (ClassRef 11, omitting ["x"])]
      (register Sample.host (ClassRef 11) no_options ∅).2 !! "Unregistered"
    = Some {| klass := ClassRef 11; omit := []; shallow := [] |}.
Proof.
  apply (duplicate_registration_rejected Sample.host (ClassRef 11) (ClassRef 12)
           no_options (omitting ["cache"])
           [(ClassRef 1, no_options); (ClassRef 11, omitting ["x"])] ∅).
  - reflexivity.
  - reflexivity.
Defined.

Lemma custom_hooks_bypass_witness :
  serialize Sample.host Sample.registry
    (VObject (Some (ClassRef 9))
       [("arrayBuffer", VArrayBuffer Sample.buffer1); ("callback", VFunction 1)])
    (Some [])
  = (Normal (record "StructArray" [("_serialized", VArrayBuffer Sample.buffer1)]),
     Some [Sample.buffer1])
  ∧ deserialize Sample.host Sample.registry
      (record "StructArray" [("_serialized", VArrayBuffer Sample.buffer1)])
    = Normal (VObject (Some (ClassRef 9))
                [("arrayBuffer", VArrayBuffer Sample.buffer1)]).
Proof.
  apply (custom_hooks_bypass Sample.host Sample.registry (ClassRef 9)
           {| klass := ClassRef 9; omit := []; shallow := [] |}
           Sample.StructArray_serialize
           [("arrayBuffer", VArrayBuffer Sample.buffer1); ("callback", VFunction 1)]
           (Some []) (Some Object) (Some Object)
           [("name", VString "StructArray");
            ("properties",
             VObject (Some Object) [("_serialized", VArrayBuffer Sample.buffer1)])]
           [("_serialized", VArrayBuffer Sample.buffer1)] "StructArray"
           {| klass := ClassRef 9; omit := []; shallow := [] |}
           Sample.StructArray_deserialize).
  - discriminate.
  - apply Sample_registered_StructArray.
  - reflexivity.
  - reflexivity.
  - reflexivity.
  - discriminate.
  - apply Sample_registered_StructArray.
  - reflexivity.
Defined.








(** The property [a] of the layer is not omitted by [Object], the value it
    holds is an instance of a registered class, and yet the round trip
    returns it changed: without its [_evaluator]. *)
Lemma nested_omitted_property_lost :
  Sample.registry !! "Object" = Some {| klass := Object; omit := []; shallow := [] |}
  ∧ Sample.layer = VObject (Some Object) [("a", Sample.expression)]
  ∧ Sample.expression
    = VObject (Some (ClassRef 3)) [("_evaluator", VNumber 1); ("x", VNumber 2)]
  ∧ Sample.registry !! name (class_of Sample.host (ClassRef 3))
    = Some {| klass := ClassRef 3; omit := ["_evaluator"]; shallow := [] |}
  ∧ (serialize Sample.host Sample.registry Sample.layer None).1
      ≫= deserialize Sample.host Sample.registry
    = Normal (VObject (Some Object)
                [("a", VObject (Some (ClassRef 3)) [("x", VNumber 2)])])
  ∧ VObject (Some (ClassRef 3)) [("x", VNumber 2)] ≠ Sample.expression.
Proof.
  split_and!; [apply Sample_registered_Object | reflexivity | reflexivity
              | apply Sample_registered_StyleExpression
              | vm_compute; reflexivity | discriminate].
Qed.

Lemma Worker_registered_Tile :
  Worker.registry !! "Tile"
  = Some {| klass := ClassRef 12; omit := ["cache"];
            shallow := ["buffer"; "callback"] |}.
Proof. vm_compute. reflexivity. Qed.

Lemma Worker_registered_StyleExpression :
  Worker.registry !! "StyleExpression"
  = Some {| klass := ClassRef 3; omit := ["_evaluator"]; shallow := [] |}.
Proof. vm_compute. reflexivity. Qed.

Lemma Worker_tile_transferable :
  transferable Worker.host Worker.registry Worker.tile.
Proof.
  eapply transferable_instance;
    [done | apply Worker_registered_Tile | done | done | done | | ].
  { apply (bool_decide_unpack _). vm_compute. reflexivity. }
  repeat (constructor; [try (intros [=]; fail) |]); [| |constructor].
  - intros _.
    eapply transferable_instance;
      [done | apply Worker_registered_StyleExpression | done | done | done | | ].
    { apply (bool_decide_unpack _). vm_compute. reflexivity. }
    repeat constructor.
  - intros _. by constructor.
Qed.

Lemma round_trip_modulo_omitted_witness :
  ∃ s t',
    serialize Worker.host Worker.registry Worker.tile (Some []) = (Normal s, t')
    ∧ deserialize Worker.host Worker.registry s
      = Normal (VObject (Some (ClassRef 12))
                  [("buffer", VArrayBuffer Sample.buffer1);
                   ("callback", VFunction 2);
                   ("expression", VObject (Some (ClassRef 3)) [("x", VNumber 2)]);
                   ("zoom", VNumber 3)])
    ∧ lookup_own "cache" Worker.tile_properties = Some (VFunction 1).
Proof.
  destruct (round_trip_modulo_omitted Worker.host Worker.registry (ClassRef 12)
              {| klass := ClassRef 12; omit := ["cache"];
                 shallow := ["buffer"; "callback"] |}
              Worker.tile_properties (Some []))
    as (s & t' & own' & H1 & H2 & H3 & _).
  - apply Worker_tile_transferable.
  - vm_compute. reflexivity.
  - apply Worker_registered_Tile.
  - exists s, t'. split; [exact H1|]. split; [|reflexivity].
    rewrite H2, H3. vm_compute. reflexivity.
Defined.

(** * Further properties *)

(** ** The registry under [register] and the load of the module *)

Lemma register_Normal host k options (registry registry' : gmap string Descriptor) u :
  register host k options registry = (Normal u, registry') →
  name (class_of host k) ≠ ""
  ∧ registry_get registry (name (class_of host k)) = None
  ∧ registry' = <[name (class_of host k) := descriptor_of k options]> registry.
Proof.
  unfold register.
  destruct (String.eqb_spec (name (class_of host k)) ""); [done|].
  destruct (registry_get registry _); [done|]. by intros [= _ <-].
Qed.

Lemma register_Throw host k options (registry registry' : gmap string Descriptor) e :
  register host k options registry = (Throw e, registry') → registry' = registry.
Proof.
  unfold register. destruct (String.eqb _ _); [by intros [= _ <-]|].
  destruct (registry_get registry _); [by intros [= _ <-] | done].
Qed.

Lemma registry_get_None (registry : gmap string Descriptor) n :
  registry_get registry n = None ↔ registry !! n = None ∧ n ∉ Object_prototype.
Proof.
  unfold registry_get. destruct (registry !! n).
  - split; [done | by intros [? _]].
  - case_bool_decide; split; try done. by intros [_ ?].
Qed.

Lemma registry_get_mono (registry registry' : gmap string Descriptor) n :
  registry ⊆ registry' →
  is_Some (registry_get registry n) → is_Some (registry_get registry' n).
Proof.
  intros Hsub [e He]. destruct (registry_get registry' n) eqn:Hget; [done|].
  apply registry_get_None in Hget as [Hn Hproto]. unfold registry_get in He.
  destruct (registry !! n) as [d|] eqn:Hd.
  - eapply lookup_weaken in Hd; [|done]. congruence.
  - by rewrite bool_decide_eq_false_2 in He.
Qed.

Lemma register_subseteq host k options (registry : gmap string Descriptor) :
  registry ⊆ (register host k options registry).2.
Proof.
  apply map_subseteq_spec. intros n d. apply register_keeps.
Qed.

Lemma register_preserves_ok host k options registry :
  registry_ok host registry →
  registry_ok host (register host k options registry).2.
Proof.
  intros Hok. destruct (register host k options registry) as [[u|e] r'] eqn:Hr.
  - apply register_Normal in Hr as (Hname & Hget & ->). simpl.
    apply registry_get_None in Hget as [_ Hproto].
    intros n d. destruct (decide (name (class_of host k) = n)) as [<-|Hne].
    + rewrite lookup_insert_eq. by intros [= <-].
    + rewrite lookup_insert_ne by done. apply Hok.
  - by apply register_Throw in Hr as ->.
Qed.

Lemma and_then_invariant (P : gmap string Descriptor → Prop) first next registry :
  (∀ r, P r → P (first r).2) → (∀ r, P r → P (next r).2) →
  P registry → P (and_then first next registry).2.
Proof.
  intros Hfirst Hnext HP. unfold and_then. specialize (Hfirst _ HP).
  destruct (first registry) as [[u|e] r1]; simpl in *; auto.
Qed.

Lemma register_expressions_invariant (P : gmap string Descriptor → Prop) host table :
  (∀ k options r, P r → P (register host k options r).2) →
  ∀ registry, P registry → P (register_expressions host table registry).2.
Proof.
  intros Hregister. induction table as [|[key E] rest IH]; intros registry HP; [done|].
  simpl. destruct (registry_get registry _); [by apply IH|].
  apply and_then_invariant; auto.
Qed.

Lemma module_load_invariant (P : gmap string Descriptor → Prop) host imports :
  (∀ k options r, P r → P (register host k options r).2) →
  P ∅ → P (module_load host imports).2.
Proof.
  intros Hregister Hempty. unfold module_load.
  repeat (apply and_then_invariant; [apply Hregister | intros ? ? | assumption]).
  by apply register_expressions_invariant.
Qed.

Lemma register_each_invariant (P : gmap string Descriptor → Prop) host calls :
  (∀ k options r, P r → P (register host k options r).2) →
  ∀ registry, P registry → P (register_each host calls registry).
Proof.
  intros Hregister. induction calls as [|call calls IH]; intros registry HP; [done|].
  simpl. apply IH. by apply Hregister.
Qed.

(** X1. The registrations made when the module is loaded, followed by any
    calls of [register], leave a registry that has no entry under the empty
    name or under a name inherited from [Object.prototype], and that keeps
    every descriptor under the name of its class. *)
Theorem registry_stays_ok
    (host : Host) (imports : Imports) (calls : list (Constructor * RegisterOptions)) :
  registry_ok host (register_each host calls (module_load host imports).2).
Proof.
  apply register_each_invariant; [apply register_preserves_ok|].
  apply module_load_invariant; [apply register_preserves_ok|].
  intros n d. by rewrite lookup_empty.
Qed.

(** X2. [register] only adds: whatever its outcome, every entry of the
    registry is still there, unchanged; when it throws, the registry is
    exactly what it was; and so the registry only grows along any sequence
    of calls, the load of the module included. *)
Theorem register_only_adds
    (host : Host) (k : Constructor) (options : RegisterOptions)
    (registry : gmap string Descriptor)
    (calls : list (Constructor * RegisterOptions)) (imports : Imports) :
  registry ⊆ (register host k options registry).2
  ∧ (∀ e registry', register host k options registry = (Throw e, registry') →
       registry' = registry)
  ∧ registry ⊆ register_each host calls registry
  ∧ (∀ n d, (module_load host imports).2 !! n = Some d →
       register_each host calls (module_load host imports).2 !! n = Some d).
Proof.
  split_and!.
  - apply register_subseteq.
  - intros e registry'. apply register_Throw.
  - apply map_subseteq_spec. intros n d. apply register_each_keeps.
  - intros n d. apply register_each_keeps.
Qed.

(** X3. The loop over the expression table cannot fail on a name that is
    taken: if every expression class has a name, the loop returns, keeps
    every entry it found, and leaves each of these names answering in the
    registry. *)
Theorem register_expressions_succeeds
    (host : Host) (table : list (string * Constructor))
    (registry : gmap string Descriptor) :
  Forall (λ entry, name (class_of host entry.2) ≠ "") table →
  ∃ registry',
    register_expressions host table registry = (Normal tt, registry')
    ∧ registry ⊆ registry'
    ∧ Forall (λ entry,
        is_Some (registry_get registry' (name (class_of host entry.2)))) table.
Proof.
  intros Hnames. revert registry.
  induction Hnames as [|[key E] rest Hname _ IH]; intros registry.
  - by exists registry.
  - simpl in *. destruct (registry_get registry (name (class_of host E))) eqn:Hget.
    + destruct (IH registry) as (r' & Hrun & Hsub & Hall).
      exists r'. split_and!; [done..|]. constructor; [|done].
      simpl. eapply registry_get_mono; [done|]. by rewrite Hget.
    + unfold and_then.
      assert (register host E no_options registry
              = (Normal tt, <[name (class_of host E) := descriptor_of E no_options]>
                              registry)) as Hreg.
      { unfold register. by rewrite eqb_empty_false, Hget. }
      rewrite Hreg. apply registry_get_None in Hget as [Hfresh _].
      destruct (IH (<[name (class_of host E) := descriptor_of E no_options]> registry))
        as (r' & Hrun & Hsub & Hall).
      exists r'. split_and!; [done| |].
      * etrans; [|done]. by apply insert_subseteq.
      * constructor; [|done]. simpl. eapply registry_get_mono; [done|].
        unfold registry_get. by rewrite lookup_insert_eq.
Qed.

Lemma and_then_Normal first next (registry registry' : gmap string Descriptor) u :
  and_then first next registry = (Normal u, registry') →
  ∃ u1 r1, first registry = (Normal u1, r1) ∧ next r1 = (Normal u, registry').
Proof.
  unfold and_then. destruct (first registry) as [[u1|e] r1]; [|done]. eauto.
Qed.

Lemma register_keeps_run host k options (registry registry' : gmap string Descriptor)
    c n d :
  register host k options registry = (c, registry') →
  registry !! n = Some d → registry' !! n = Some d.
Proof.
  intros Hr Hn. apply (register_keeps host k options) in Hn. by rewrite Hr in Hn.
Qed.

Lemma register_expressions_keeps_run host table
    (registry registry' : gmap string Descriptor) c n d :
  register_expressions host table registry = (c, registry') →
  registry !! n = Some d → registry' !! n = Some d.
Proof.
  intros Hr Hn.
  pose proof (register_expressions_invariant (λ r, r !! n = Some d) host table
                (λ k o r, register_keeps host k o r n d) registry Hn) as H.
  by rewrite Hr in H.
Qed.

Lemma register_stores host k options (registry registry' : gmap string Descriptor) u :
  register host k options registry = (Normal u, registry') →
  registry' !! name (class_of host k) = Some (descriptor_of k options).
Proof. intros (_ & _ & ->)%register_Normal. apply lookup_insert_eq. Qed.

(** X4. When the module loads without throwing, the registry holds each of
    the eight classes it registers by name, under that name, with the
    constructor given and the omit list written in the call: none for
    [Object], [Color] and the plain expression classes, [_evaluator] for the
    two style expressions, [_evaluate] for [CompoundExpression]; no shallow
    list anywhere. *)
Theorem module_load_registers
    (host : Host) (imports : Imports) (registry : gmap string Descriptor) :
  module_load host imports = (Normal tt, registry) →
  Forall (λ call, registry !! name (class_of host call.1)
                  = Some (descriptor_of call.1 call.2))
         (module_registrations imports).
Proof.
  unfold module_load. intros H.
  apply and_then_Normal in H as (u1 & r1 & H1 & H).
  apply and_then_Normal in H as (u2 & r2 & H2 & H).
  apply and_then_Normal in H as (u3 & r3 & H3 & H).
  apply and_then_Normal in H as (u4 & r4 & H4 & H).
  apply and_then_Normal in H as (u5 & r5 & H5 & H).
  apply and_then_Normal in H as (u6 & r6 & H6 & H).
  apply and_then_Normal in H as (u7 & r7 & H7 & H).
  apply and_then_Normal in H as (u8 & r8 & H8 & H).
  pose proof (register_stores _ _ _ _ _ _ H1) as S1.
  pose proof (register_stores _ _ _ _ _ _ H2) as S2.
  pose proof (register_stores _ _ _ _ _ _ H3) as S3.
  pose proof (register_stores _ _ _ _ _ _ H4) as S4.
  pose proof (register_stores _ _ _ _ _ _ H5) as S5.
  pose proof (register_stores _ _ _ _ _ _ H6) as S6.
  pose proof (register_stores _ _ _ _ _ _ H7) as S7.
  pose proof (register_stores _ _ _ _ _ _ H8) as S8.
  unfold module_registrations.
  repeat constructor; simpl;
    eapply register_expressions_keeps_run; try exact H;
    repeat (first [ eassumption
                  | eapply register_keeps_run; [eassumption|] ]).
Qed.

(** ** Names inherited from [Object.prototype] *)




(** ** Values without objects *)

Lemma for_of_cons body item rest t :
  for_of body (item :: rest) t =
  match body item t with
  | (Normal s, t1) =>
      match for_of body rest t1 with
      | (Normal ss, t2) => (Normal (s :: ss), t2)
      | (Throw e, t2) => (Throw e, t2)
      end
  | (Throw e, t1) => (Throw e, t1)
  end.
Proof.
  simpl. unfold bind at 1. destruct (body item t) as [[s|e] t1]; [|done].
  unfold bind. by destruct (for_of body rest t1) as [[ss|e] t2].
Qed.

Lemma serialize_array host registry items t :
  serialize host registry (VArray items) t =
  match for_of (serialize host registry) items t with
  | (Normal ss, t') => (Normal (VArray ss), t')
  | (Throw e, t') => (Throw e, t')
  end.
Proof.
  change (serialize host registry (VArray items))
    with (bind (for_of (serialize host registry) items)
               (λ serialized, ret (VArray serialized))).
  unfold bind. by destruct (for_of _ items t) as [[ss|e] t'].
Qed.

Lemma deserialize_array host registry items :
  deserialize host registry (VArray items)
  = VArray <$> map_completion (deserialize host registry) items.
Proof. reflexivity. Qed.

Lemma map_completion_cons f item rest :
  map_completion f (item :: rest) =
  match f item with
  | Normal r =>
      match map_completion f rest with
      | Normal rs => Normal (r :: rs)
      | Throw e => Throw e
      end
  | Throw e => Throw e
  end.
Proof.
  simpl. destruct (f item); [simpl|done]. by destruct (map_completion f rest).
Qed.

Section Data.
Context (host : Host) (registry : gmap string Descriptor).

Lemma data_only_fixed (v : value) :
  data_only v = true →
  (∀ t, serialize host registry v t
        = (Normal v, (λ l, l ++ transferred host registry v) <$> t))
  ∧ deserialize host registry v = Normal v.
Proof.
  induction v as [v Harr Hobj | items IH | c own IH] using value_nested_ind;
    intros Hdata; [| |done].
  - destruct v; try done; try (by destruct (Harr items));
      (split; [intros [l|]; simpl; by rewrite ?app_nil_r | done]).
  - simpl in Hdata. rewrite forallb_forall in Hdata.
    assert (Forall (λ item,
              (∀ t, serialize host registry item t
                    = (Normal item, (λ l, l ++ transferred host registry item) <$> t))
              ∧ deserialize host registry item = Normal item) items) as Hitems.
    { rewrite Forall_forall in IH. apply Forall_forall. intros item Hin.
      apply IH; [done|]. apply Hdata. by apply list_elem_of_In. }
    clear IH Hdata. split.
    + intros t. rewrite serialize_array.
      assert (for_of (serialize host registry) items t
              = (Normal items,
                 (λ l, l ++ flat_map (transferred host registry) items) <$> t)) as ->; [|done].
      revert t. induction Hitems as [|item rest [Hs _] _ IH]; intros t.
      * destruct t; simpl; by rewrite ?app_nil_r.
      * rewrite for_of_cons, Hs, IH. destruct t; simpl; by rewrite ?app_assoc.
    + rewrite deserialize_array.
      assert (map_completion (deserialize host registry) items = Normal items) as ->; [|done].
      induction Hitems as [|item rest [_ Hd] _ IH]; [done|].
      by rewrite map_completion_cons, Hd, IH.
Qed.

(** X6. A value made of scalars, boxed scalars, binary values and arrays of
    them comes out of [serialize] and out of [deserialize] as it went in;
    [serialize] appends to the transferables, when there are any, the
    owning buffers of its binary values in order. *)
Theorem data_passes_unchanged (v : value) (t : Transferables) :
  data_only v = true →
  serialize host registry v t
    = (Normal v, (λ l, l ++ transferred host registry v) <$> t)
  ∧ deserialize host registry v = Normal v.
Proof. intros Hdata. destruct (data_only_fixed v Hdata) as [Hs Hd]. by split. Qed.

End Data.

(** ** What [serialize] looks at *)

Section Looking.
Context (host : Host) (registry : gmap string Descriptor).

Lemma for_in_cons_run body key p rest acc t :
  for_in body ((key, p) :: rest) acc t =
  match body key p acc t with
  | (Normal acc', t1) => for_in body rest acc' t1
  | (Throw e, t1) => (Throw e, t1)
  end.
Proof. simpl. unfold bind. by destruct (body key p acc t) as [[acc'|e] t1]. Qed.

Lemma serialize_property_run entry key p acc t :
  serialize_property host registry entry key p acc t =
  match entry with
  | Inherited => (Throw TypeError, t)
  | Own d =>
      if bool_decide (key ∈ omit d) then (Normal acc, t)
      else if bool_decide (key ∈ shallow d) then (Normal (set key p acc), t)
      else match serialize host registry p t with
           | (Normal s, t1) => (Normal (set key s acc), t1)
           | (Throw e, t1) => (Throw e, t1)
           end
  end.
Proof.
  destruct entry as [d|]; [|done]. rewrite serialize_property_eq.
  destruct (bool_decide (key ∈ omit d)); [done|].
  destruct (bool_decide (key ∈ shallow d)); [done|].
  unfold bind. by destruct (serialize host registry p t) as [[s|e] t1].
Qed.

Lemma serialize_generic k own entry t :
  name (class_of host k) ≠ "" →
  registry_get registry (name (class_of host k)) = Some entry →
  static_serialize (class_of host k) = None →
  serialize host registry (VObject (Some k) own) t =
  if not_callable own then (Throw TypeError, t)
  else
    match for_in (serialize_property host registry entry) own [] t with
    | (Normal ps, t') => (Normal (record (name (class_of host k)) ps), t')
    | (Throw e, t') => (Throw e, t')
    end.
Proof.
  intros Hname Hget Hhook. rewrite serialize_object. simpl.
  rewrite eqb_empty_false, Hget, Hhook by done. unfold bind.
  destruct (not_callable own); [done|].
  by destruct (for_in _ own [] t) as [[ps|e] t'].
Qed.

Lemma value_alone_for_of items :
  Forall (λ item, ∀ t t0, (serialize host registry item t).1
                          = (serialize host registry item t0).1) items →
  ∀ t t0, (for_of (serialize host registry) items t).1
          = (for_of (serialize host registry) items t0).1.
Proof.
  induction 1 as [|item rest Hitem _ IH]; intros t t0; [done|].
  rewrite !for_of_cons. specialize (Hitem t t0).
  destruct (serialize host registry item t) as [[s|e] t1],
           (serialize host registry item t0) as [[s0|e0] t1'];
    simpl in Hitem; simplify_eq; [|done].
  specialize (IH t1 t1').
  destruct (for_of _ rest t1) as [[ss|e] t2],
           (for_of _ rest t1') as [[ss0|e0] t2'];
    simpl in IH; by simplify_eq.
Qed.

Lemma value_alone_for_in entry own :
  Forall (λ kv, ∀ t t0, (serialize host registry kv.2 t).1
                        = (serialize host registry kv.2 t0).1) own →
  ∀ acc t t0,
    (for_in (serialize_property host registry entry) own acc t).1
    = (for_in (serialize_property host registry entry) own acc t0).1.
Proof.
  induction 1 as [|[key p] rest Hp _ IH]; intros acc t t0; [done|].
  rewrite !for_in_cons_run, !serialize_property_run.
  destruct entry as [d|]; [|done].
  destruct (bool_decide (key ∈ omit d)); [by apply IH|].
  destruct (bool_decide (key ∈ shallow d)); [by apply IH|].
  specialize (Hp t t0). simpl in Hp.
  destruct (serialize host registry p t) as [[s|e] t1],
           (serialize host registry p t0) as [[s0|e0] t1'];
    simpl in Hp; simplify_eq; [by apply IH | done].
Qed.

Lemma value_alone (v : value) :
  hook_free host v = true →
  ∀ t t0, (serialize host registry v t).1 = (serialize host registry v t0).1.
Proof.
  induction v as [v Harr Hobj | items IH | c own IH] using value_nested_ind;
    intros Hfree t t0.
  - destruct v; try done.
    + by destruct (Harr items).
    + by destruct (Hobj constructor own).
  - rewrite !serialize_array.
    simpl in Hfree. rewrite forallb_forall in Hfree.
    assert ((for_of (serialize host registry) items t).1
            = (for_of (serialize host registry) items t0).1) as H.
    { apply value_alone_for_of. rewrite Forall_forall in IH.
      apply Forall_forall. intros item Hin. apply IH; [done|].
      apply Hfree. by apply list_elem_of_In. }
    destruct (for_of _ items t) as [[ss|e] t1],
             (for_of _ items t0) as [[ss0|e0] t1'];
      simpl in H; by simplify_eq.
  - destruct c as [k|]; [|done].
    simpl in Hfree. apply andb_true_iff in Hfree as [Hhook Hfree].
    apply bool_decide_eq_true in Hhook. rewrite forallb_forall in Hfree.
    rewrite !serialize_object. simpl.
    destruct (String.eqb _ _); [done|].
    destruct (registry_get _ _) as [entry|]; [|done].
    rewrite Hhook. unfold bind.
    destruct (not_callable own); [done|].
    assert ((for_in (serialize_property host registry entry) own [] t).1
            = (for_in (serialize_property host registry entry) own [] t0).1) as H.
    { apply value_alone_for_in. rewrite Forall_forall in IH.
      apply Forall_forall. intros kv Hin. apply IH; [done|].
      apply Hfree. by apply list_elem_of_In. }
    destruct (for_in _ own [] t) as [[ps|e] t1],
             (for_in _ own [] t0) as [[ps0|e0] t1'];
      simpl in H; by simplify_eq.
Qed.

(** X7. Where no class has a [serialize] hook, what [serialize] returns or
    throws does not depend on the transferables: it is the same with no
    list, with an empty list and with any list. *)
Theorem transport_value_ignores_transferables (v : value) (t t0 : Transferables) :
  hook_free host v = true →
  (serialize host registry v t).1 = (serialize host registry v t0).1.
Proof. intros Hfree. by apply value_alone. Qed.

Lemma for_in_without_omitted d own acc t :
  for_in (serialize_property host registry (Own d)) own acc t
  = for_in (serialize_property host registry (Own d))
      (filter (λ kv, kv.1 ∉ omit d) own) acc t.
Proof.
  revert acc t. induction own as [|[key p] rest IH]; intros acc t; [done|].
  rewrite for_in_cons_run, filter_cons. case_decide as Homit; simpl in Homit.
  - rewrite for_in_cons_run.
    destruct (serialize_property host registry (Own d) key p acc t) as [[acc'|e] t1];
      [apply IH | done].
  - rewrite serialize_property_run.
    rewrite bool_decide_eq_true_2 by done. apply IH.
Qed.

(** X8. An omitted property is never looked at: for an instance of a
    registered class without a [serialize] hook that has no own property
    named [hasOwnProperty], [__proto__] or [constructor], [serialize] does
    exactly what it does on the instance with the omitted properties taken
    away, whatever those hold. *)
Theorem omitted_properties_not_inspected
    (k : Constructor) (d : Descriptor) (own : list (string * value))
    (t : Transferables) :
  name (class_of host k) ≠ "" →
  registry !! name (class_of host k) = Some d →
  static_serialize (class_of host k) = None →
  ordinary_keys own = true →
  serialize host registry (VObject (Some k) own) t
  = serialize host registry
      (VObject (Some k) (filter (λ kv, kv.1 ∉ omit d) own)) t.
Proof.
  intros Hname Hreg Hhook Hkeys.
  rewrite !(serialize_generic k _ (Own d)) by auto using registry_get_registered.
  rewrite (ordinary_keys_not_callable _ Hkeys).
  rewrite (ordinary_keys_not_callable _ (ordinary_keys_filter _ _ Hkeys)).
  by rewrite for_in_without_omitted.
Qed.

Lemma for_in_shallow d own :
  Forall (λ kv, kv.1 ∈ omit d ∨ kv.1 ∈ shallow d) own →
  "__proto__" ∉ own.*1 →
  ∀ acc t,
    NoDup (acc.*1 ++ own.*1) →
    for_in (serialize_property host registry (Own d)) own acc t
    = (Normal (acc ++ filter (λ kv, kv.1 ∉ omit d) own), t).
Proof.
  induction 1 as [|[key p] rest Hkey _ IH]; intros Hproto acc t Hnodup.
  - by rewrite app_nil_r.
  - csimpl in Hnodup. csimpl in Hproto.
    apply not_elem_of_cons in Hproto as [Hkey' Hproto]. specialize (IH Hproto).
    rewrite for_in_cons_run, serialize_property_run, filter_cons.
    simpl in *. case_bool_decide as Homit.
    + rewrite decide_False by (by intros ?).
      apply IH. by eapply NoDup_keys_skip.
    + rewrite decide_True by done.
      destruct Hkey as [?|Hshallow]; [done|].
      rewrite bool_decide_eq_true_2 by done.
      rewrite (set_fresh key p acc) by (done || by eapply NoDup_keys_fresh).
      rewrite IH by (by apply NoDup_keys_step). by rewrite <- app_assoc.
Qed.

(** X9. Shallow properties are handed over as they are and not entered: an
    instance whose properties are all shallow or omitted, none of them
    named [hasOwnProperty], [__proto__] or [constructor], serializes to the
    record of its shallow properties with their original values, whatever
    these are, and nothing is pushed on the transferables. *)
Theorem shallow_properties_copied
    (k : Constructor) (d : Descriptor) (own : list (string * value))
    (t : Transferables) :
  name (class_of host k) ≠ "" →
  registry !! name (class_of host k) = Some d →
  static_serialize (class_of host k) = None →
  NoDup own.*1 →
  ordinary_keys own = true →
  Forall (λ kv, kv.1 ∈ omit d ∨ kv.1 ∈ shallow d) own →
  serialize host registry (VObject (Some k) own) t
  = (Normal (record (name (class_of host k))
               (filter (λ kv, kv.1 ∉ omit d) own)), t).
Proof.
  intros Hname Hreg Hhook Hnodup Hkeys Hown.
  rewrite (serialize_generic k _ (Own d)) by auto using registry_get_registered.
  rewrite (ordinary_keys_not_callable _ Hkeys).
  by rewrite (for_in_shallow d own Hown (ordinary_keys_proto _ Hkeys)).
Qed.

Lemma for_of_failure before bad rest t ss t1 e t2 :
  serialized_in_order host registry before t ss t1 →
  serialize host registry bad t1 = (Throw e, t2) →
  for_of (serialize host registry) (before ++ bad :: rest) t = (Throw e, t2).
Proof.
  intros Hbefore Hbad.
  induction Hbefore as [t|item s items ss t t1 t1' Hitem _ IH]; simpl app.
  - by rewrite for_of_cons, Hbad.
  - by rewrite for_of_cons, Hitem, IH.
Qed.

Lemma map_completion_failure f before bad rest rs e :
  Forall2 (λ s r, f s = Normal r) before rs →
  f bad = Throw e →
  map_completion f (before ++ bad :: rest) = Throw e.
Proof.
  intros Hbefore Hbad.
  induction Hbefore as [|item r items rs Hitem _ IH]; simpl app.
  - by rewrite map_completion_cons, Hbad.
  - by rewrite map_completion_cons, Hitem, IH.
Qed.

(** X10. In an array the first failure decides: when the items before an
    item serialize in order and that item throws, [serialize] of the array
    throws the same exception, with the transferables as that item left
    them (what the earlier items pushed stays pushed) and without looking
    at the items after it; [deserialize] likewise throws what its first
    failing item throws. *)
Theorem first_failure_decides
    (before : list value) (bad : value) (rest : list value)
    (t t1 t2 : Transferables) (ss : list value) (e : exception)
    (before' : list value) (bad' : value) (rest' : list value)
    (rs : list value) (e' : exception) :
  serialized_in_order host registry before t ss t1 →
  serialize host registry bad t1 = (Throw e, t2) →
  Forall2 (λ s r, deserialize host registry s = Normal r) before' rs →
  deserialize host registry bad' = Throw e' →
  serialize host registry (VArray (before ++ bad :: rest)) t = (Throw e, t2)
  ∧ deserialize host registry (VArray (before' ++ bad' :: rest')) = Throw e'.
Proof.
  intros Hbefore Hbad Hbefore' Hbad'. split.
  - by rewrite serialize_array, (for_of_failure _ _ _ _ _ _ _ _ Hbefore Hbad).
  - by rewrite deserialize_array, (map_completion_failure _ _ _ _ _ _ Hbefore' Hbad').
Qed.

(** X11. A record that names a registered class but has no [properties],
    or [null] for them, makes [deserialize] throw a [TypeError], whether the
    class has a [deserialize] hook or not. *)
Theorem record_without_properties
    (c : option Constructor) (fields : list (string * value))
    (n : string) (d : Descriptor) :
  lookup_own "name" fields = Some (VString n) →
  n ≠ "" →
  registry !! n = Some d →
  lookup_own "properties" fields = None
  ∨ lookup_own "properties" fields = Some VUndefined
  ∨ lookup_own "properties" fields = Some VNull →
  deserialize host registry (VObject c fields) = Throw TypeError.
Proof.
  intros Hn Hne Hreg Hp. rewrite deserialize_object. unfold Get. rewrite Hn. simpl.
  rewrite eqb_empty_false, (registry_get_registered _ _ d) by done.
  destruct (static_deserialize _); by destruct Hp as [-> | [-> | ->]].
Qed.

End Looking.

(** ** Induction two levels deep, for records *)

Lemma value_deep_ind (Q : value → Prop) :
  (∀ v, (∀ items, v ≠ VArray items) → (∀ c own, v ≠ VObject c own) → Q v) →
  (∀ items, Forall Q items → Q (VArray items)) →
  (∀ c own, Forall (λ kv, Q kv.2 ∧ children_all Q kv.2) own → Q (VObject c own)) →
  ∀ v, Q v.
Proof.
  intros Hleaf Harray Hobject v.
  enough (Q v ∧ children_all Q v) as [? _] by done.
  induction v as [v Harr Hobj | items IH | c own IH] using value_nested_ind.
  - split; [by apply Hleaf|]. destruct v; try done.
    + by destruct (Harr items).
    + by destruct (Hobj constructor own).
  - assert (Forall Q items) as H.
    { eapply Forall_impl; [exact IH|]. by intros ? [? _]. }
    split; [by apply Harray | done].
  - split; [by apply Hobject|]. simpl.
    eapply Forall_impl; [exact IH|]. by intros ? [? _].
Qed.

(** ** What [deserialize] looks at *)

Section Dispatch.
Context (host : Host) (registry : gmap string Descriptor).

Lemma same_but_omit_get registry' n :
  same_but_omit registry registry' →
  match registry_get registry n, registry_get registry' n with
  | Some (Own d), Some (Own d') => klass d = klass d' ∧ shallow d = shallow d'
  | Some Inherited, Some Inherited | None, None => True
  | _, _ => False
  end.
Proof.
  intros Hsame. specialize (Hsame n). unfold registry_get.
  destruct Hsame as [d d' H|]; [done|]. by case_bool_decide.
Qed.

Lemma for_keys_ext body body' own :
  Forall (λ kv, ∀ acc, body kv.1 kv.2 acc = body' kv.1 kv.2 acc) own →
  ∀ acc, for_keys body own acc = for_keys body' own acc.
Proof.
  induction 1 as [|[key p] rest Hp _ IH]; intros acc; [done|].
  rewrite !for_keys_cons. simpl in Hp. rewrite Hp.
  destruct (body' key p acc); [apply IH | done].
Qed.

Lemma for_indices_ext body body' items :
  Forall (λ item, ∀ key acc, body key item acc = body' key item acc) items →
  ∀ i acc, for_indices body items i acc = for_indices body' items i acc.
Proof.
  induction 1 as [|item rest Hp _ IH]; intros i acc; [done|].
  simpl. rewrite Hp. destruct (body' (pretty i) item acc); [apply IH | done].
Qed.

Lemma map_completion_ext f f' items :
  Forall (λ item, f item = f' item) items →
  map_completion f items = map_completion f' items.
Proof.
  induction 1 as [|item rest Hp _ IH]; [done|].
  by rewrite !map_completion_cons, Hp, IH.
Qed.

Lemma deserialize_same_but_omit registry' :
  same_but_omit registry registry' →
  ∀ v, deserialize host registry v = deserialize host registry' v.
Proof.
  intros Hsame v.
  induction v as [v Harr Hobj | items IH | c own IH] using value_deep_ind.
  - destruct v; try done.
    + by destruct (Harr items).
    + by destruct (Hobj constructor own).
  - rewrite !deserialize_array. by rewrite (map_completion_ext _ _ _ IH).
  - rewrite !deserialize_object. simpl.
    destruct (negb _); [done|].
    pose proof (same_but_omit_get registry'
                  (ToPropertyKey host (Get own "name")) Hsame) as Hget.
    destruct (registry_get registry _) as [[d|]|],
             (registry_get registry' _) as [[d'|]|]; try done.
    destruct Hget as [Hklass Hshallow]. rewrite <- Hklass.
    destruct (static_deserialize _); [done|].
    destruct (lookup_own "properties" own) as [properties|] eqn:Hp; [|done].
    assert (children_all (λ v, deserialize host registry v
                               = deserialize host registry' v) properties) as Hin.
    { clear -IH Hp. induction IH as [|[k v] rest [_ Hv] _ IHrest]; [done|].
      simpl in Hp. destruct (String.eqb k "properties"); [by simplify_eq | auto]. }
    destruct properties; try done; simpl in Hin.
    + f_equal. apply for_indices_ext.
      eapply Forall_impl; [exact Hin|]. intros item E key acc.
      unfold assign_property. by rewrite Hshallow, E.
    + f_equal. apply for_keys_ext.
      eapply Forall_impl; [exact Hin|]. intros [key p] E acc. simpl in *.
      unfold assign_property. by rewrite Hshallow, E.
Qed.

(** X12. [deserialize] reads no omit list anywhere: on two registries that
    hold the same classes with the same shallow lists and differ in their
    omit lists only, it returns or throws the same, for every input. *)
Theorem deserialize_never_reads_omit
    (registry' : gmap string Descriptor) (v : value) :
  same_but_omit registry registry' →
  deserialize host registry v = deserialize host registry' v.
Proof. intros Hsame. by apply deserialize_same_but_omit. Qed.

(** X13. Classes are told apart by name only.  An instance of a class that
    has the name of a registered class, neither having a [serialize] hook,
    is serialized exactly as an instance of the registered class with the
    same properties would be; and what [deserialize] makes of the result is
    an instance of the registered class. *)
Theorem same_name_same_transport
    (k k' : Constructor) (d : Descriptor) (own : list (string * value))
    (t t' : Transferables) (s r : value) :
  name (class_of host k') = name (class_of host k) →
  name (class_of host k) ≠ "" →
  registry !! name (class_of host k) = Some d →
  klass d = k →
  static_serialize (class_of host k) = None →
  static_serialize (class_of host k') = None →
  static_deserialize (class_of host k) = None →
  serialize host registry (VObject (Some k') own) t
  = serialize host registry (VObject (Some k) own) t
  ∧ (serialize host registry (VObject (Some k') own) t = (Normal s, t') →
     deserialize host registry s = Normal r →
     ∃ own', r = VObject (Some k) own').
Proof.
  intros Hsame Hname Hreg Hklass Hhook Hhook' Hdes.
  assert (serialize host registry (VObject (Some k') own) t
          = serialize host registry (VObject (Some k) own) t) as E.
  { rewrite (serialize_generic _ _ k' own (Own d)), (serialize_generic _ _ k own (Own d));
      rewrite ?Hsame; auto using registry_get_registered. }
  split; [done|]. rewrite E, (serialize_generic _ _ k own (Own d))
    by auto using registry_get_registered.
  destruct (not_callable own); [done|].
  destruct (for_in _ own [] t) as [[ps|e] t1]; [|done].
  intros [= <- <-]. unfold record.
  rewrite (deserialize_record _ _ _ (Some Object) _ (name (class_of host k)) d ps)
    by done.
  rewrite Hklass, Hdes.
  destruct (for_keys _ ps []) as [rs|e]; [|done]. intros [= <-]. by exists rs.
Qed.

End Dispatch.

(** ** Property names read on the object itself *)

Section OwnNames.
Context (host : Host) (registry : gmap string Descriptor).

Lemma for_in_app body own1 own2 acc t :
  for_in body (own1 ++ own2) acc t =
  match for_in body own1 acc t with
  | (Normal acc', t1) => for_in body own2 acc' t1
  | (Throw e, t1) => (Throw e, t1)
  end.
Proof.
  revert acc t. induction own1 as [|[key p] rest IH]; intros acc t; [done|].
  simpl app. rewrite !for_in_cons_run.
  destruct (body key p acc t) as [[acc'|e] t1]; [apply IH | done].
Qed.

Lemma for_keys_app body own1 own2 acc :
  for_keys body (own1 ++ own2) acc = for_keys body own1 acc ≫= for_keys body own2.
Proof.
  revert acc. induction own1 as [|[key p] rest IH]; intros acc; [done|].
  simpl app. rewrite !for_keys_cons.
  destruct (body key p acc) as [acc'|e]; [apply IH | done].
Qed.

Lemma lookup_own_app key own1 own2 :
  lookup_own key (own1 ++ own2) =
  match lookup_own key own1 with
  | Some v => Some v
  | None => lookup_own key own2
  end.
Proof.
  induction own1 as [|[k w] rest IH]; [done|].
  simpl. by destruct (String.eqb k key).
Qed.

Lemma lookup_own_without key k v own1 own2 :
  k ≠ key →
  lookup_own key (own1 ++ (k, v) :: own2) = lookup_own key (own1 ++ own2).
Proof.
  intros Hne. rewrite !lookup_own_app. simpl.
  by destruct (String.eqb_spec k key).
Qed.

Lemma primitive_serialize v t :
  primitive v = true → serialize host registry v t = (Normal v, t).
Proof. by destruct v. Qed.

Lemma primitive_deserialize v :
  primitive v = true → deserialize host registry v = Normal v.
Proof. by destruct v. Qed.

(** X17. The loop of [serialize] calls [hasOwnProperty] on the instance
    itself, and before it looks at the omit list: an instance of a
    registered class without a [serialize] hook that has an own property of
    that name which is not a function makes [serialize] throw a
    [TypeError] at its first key, with nothing pushed. *)
Theorem own_hasOwnProperty_is_called
    (k : Constructor) (d : Descriptor) (own : list (string * value))
    (v : value) (t : Transferables) :
  name (class_of host k) ≠ "" →
  registry !! name (class_of host k) = Some d →
  static_serialize (class_of host k) = None →
  lookup_own "constructor" own = None →
  lookup_own "hasOwnProperty" own = Some v →
  (∀ ref, v ≠ VFunction ref) →
  serialize host registry (VObject (Some k) own) t = (Throw TypeError, t).
Proof.
  intros Hname Hreg Hhook _ Hown Hv.
  rewrite (serialize_generic _ _ k own (Own d)) by auto using registry_get_registered.
  unfold not_callable. rewrite Hown. destruct v; try done. by destruct (Hv ref).
Qed.

(** X18. An own property named [__proto__] that holds a primitive value is
    not transported: [properties[key] = ...] hands it to the setter of
    [Object.prototype], which ignores it, and [serialize] does what it does
    on the instance without that property. *)
Theorem proto_property_not_transported
    (k : Constructor) (d : Descriptor) (before after : list (string * value))
    (v : value) (t : Transferables) :
  name (class_of host k) ≠ "" →
  registry !! name (class_of host k) = Some d →
  static_serialize (class_of host k) = None →
  ordinary_keys (before ++ after) = true →
  primitive v = true →
  serialize host registry (VObject (Some k) (before ++ ("__proto__", v) :: after)) t
  = serialize host registry (VObject (Some k) (before ++ after)) t.
Proof.
  intros Hname Hreg Hhook Hkeys Hv.
  rewrite !(serialize_generic _ _ k _ (Own d)) by auto using registry_get_registered.
  pose proof (ordinary_keys_not_callable _ Hkeys) as Hcall.
  assert (not_callable (before ++ ("__proto__", v) :: after) = false) as ->.
  { unfold not_callable in *. by rewrite lookup_own_without. }
  rewrite Hcall, !for_in_app.
  destruct (for_in _ before [] t) as [[acc|e] t1]; [|done].
  rewrite for_in_cons_run, serialize_property_run.
  destruct (bool_decide _); [done|].
  rewrite primitive_serialize, set_proto by done.
  by destruct (bool_decide _).
Qed.

(** X19. The same at the other end: a key [__proto__] of a record's
    [properties] that holds a primitive value is not restored, whatever the
    class and its lists, and [deserialize] does what it does on the record
    without that key. *)
Theorem proto_key_never_restored
    (n : string) (before after : list (string * value)) (v : value) :
  primitive v = true →
  deserialize host registry (record n (before ++ ("__proto__", v) :: after))
  = deserialize host registry (record n (before ++ after)).
Proof.
  intros Hv. unfold record. rewrite !deserialize_object. unfold Get. simpl.
  destruct (negb _); [done|].
  destruct (registry_get _ _) as [[d|]|]; [|done..].
  destruct (static_deserialize _).
  { unfold Get. by rewrite lookup_own_without. }
  f_equal. rewrite !for_keys_app.
  destruct (for_keys _ before []) as [acc|e]; [simpl|done].
  rewrite assign_property_eq.
  rewrite primitive_deserialize by done. simpl. rewrite set_proto.
  by destruct (bool_decide _).
Qed.

End OwnNames.

(** ** The wire format *)

Section WireFormat.
Context (host : Host) (registry : gmap string Descriptor).

Lemma for_of_wire items :
  Forall (λ item, ∀ t s t', serialize host registry item t = (Normal s, t') →
                            wire host registry s) items →
  ∀ t ss t', for_of (serialize host registry) items t = (Normal ss, t') →
             Forall (wire host registry) ss.
Proof.
  induction 1 as [|item rest Hitem _ IH]; intros t ss t'.
  - by intros [= <- _].
  - rewrite for_of_cons.
    destruct (serialize host registry item t) as [[s|e] t1] eqn:Hs; [|done].
    destruct (for_of _ rest t1) as [[ss'|e] t2] eqn:Hrest; [|done].
    intros [= <- _]. constructor; eauto.
Qed.

Lemma for_in_wire d own :
  Forall (λ kv, traversed d kv.1 = true →
                ∀ t s t', serialize host registry kv.2 t = (Normal s, t') →
                          wire host registry s) own →
  ∀ acc t ps t',
    NoDup (acc.*1 ++ own.*1) →
    for_in (serialize_property host registry (Own d)) own acc t = (Normal ps, t') →
    ∃ new, ps = acc ++ new
           ∧ NoDup (acc.*1 ++ new.*1)
           ∧ Forall (λ kv, kv.1 ∉ omit d) new
           ∧ Forall (λ kv, kv.1 ∉ shallow d → wire host registry kv.2) new.
Proof.
  induction 1 as [|[key p] rest Hp _ IH]; intros acc t ps t' Hnodup.
  - intros [= <- _]. exists []. rewrite app_nil_r.
    split_and!; [done | done | constructor | constructor].
  - csimpl in Hnodup. rewrite for_in_cons_run, serialize_property_run.
    unfold traversed in Hp. simpl in Hp.
    case_bool_decide as Homit; simpl in Hp.
    { apply IH. by eapply NoDup_keys_skip. }
    pose proof (NoDup_keys_fresh _ _ _ Hnodup) as Hfresh.
    destruct (decide (key = "__proto__")) as [->|Hkey].
    { rewrite !set_proto.
      assert (∀ t1, for_in (serialize_property host registry (Own d)) rest acc t1
                    = (Normal ps, t') →
                ∃ new, ps = acc ++ new
                       ∧ NoDup (acc.*1 ++ new.*1)
                       ∧ Forall (λ kv, kv.1 ∉ omit d) new
                       ∧ Forall (λ kv, kv.1 ∉ shallow d → wire host registry kv.2) new)
        as Hrest.
      { intros t1. apply IH. by eapply NoDup_keys_skip. }
      case_bool_decide; [by apply Hrest|].
      destruct (serialize host registry p t) as [[s|e] t1]; [by apply Hrest | done]. }
    case_bool_decide as Hshallow; simpl in Hp.
    + rewrite (set_fresh _ _ _ Hfresh Hkey). intros Hrun.
      apply IH in Hrun as (new & -> & Hnd & Hom & Hw);
        [|by apply NoDup_keys_step].
      exists ((key, p) :: new). rewrite <- app_assoc. split_and!; [done| | |].
      * by rewrite fmap_app, <- app_assoc in Hnd.
      * by constructor.
      * by constructor.
    + destruct (serialize host registry p t) as [[s|e] t1] eqn:Hs; [|done].
      rewrite (set_fresh _ _ _ Hfresh Hkey). intros Hrun.
      apply IH in Hrun as (new & -> & Hnd & Hom & Hw);
        [|by apply NoDup_keys_step].
      exists ((key, s) :: new). rewrite <- app_assoc. split_and!; [done| | |].
      * by rewrite fmap_app, <- app_assoc in Hnd.
      * by constructor.
      * constructor; [|done]. intros _. eauto.
Qed.

Lemma serialize_wire (v : value) :
  transferable host registry v →
  hook_free host v = true →
  ∀ t s t', serialize host registry v t = (Normal s, t') → wire host registry s.
Proof.
  induction v as [v Harr Hobj | items IH | c own IH] using value_nested_ind;
    intros Hv Hfree t s t'.
  - destruct v; try (by destruct (Harr items));
      try (by destruct (Hobj constructor own)); try (by inversion Hv);
      intros [= <- _]; by constructor.
  - inversion Hv as [v' Hpass|items' Hitems| |]; subst; [done|].
    simpl in Hfree. rewrite forallb_forall in Hfree.
    rewrite serialize_array.
    destruct (for_of _ items t) as [[ss|e] t1] eqn:Hloop; [|done].
    intros [= <- _]. apply wire_array. eapply for_of_wire; [|done].
    rewrite Forall_forall in IH, Hitems. apply Forall_forall. intros item Hin.
    apply IH; auto. apply Hfree. by apply list_elem_of_In.
  - simpl in Hfree.
    inversion Hv as [v' Hpass| |k d own' Hname Hreg Hklass Hs Hd Hnodup Hown
                    |k d own' hook hook' Hname Hreg Hklass Hs Hd Hinverse];
      subst; [done| |].
    + apply andb_true_iff in Hfree as [_ Hfree]. rewrite forallb_forall in Hfree.
      rewrite (serialize_generic _ _ _ own (Own d))
        by auto using registry_get_registered.
      destruct (not_callable own); [done|].
      destruct (for_in _ own [] t) as [[ps|e] t1] eqn:Hloop; [|done].
      intros [= <- _].
      apply for_in_wire in Hloop as (new & -> & Hnd & Hom & Hw); [|
        rewrite Forall_forall in IH, Hown; apply Forall_forall;
        intros kv Hin Htrav; apply IH; auto; apply Hfree; by apply list_elem_of_In
        | done].
      by eapply wire_record.
    + apply andb_true_iff in Hfree as [Hfree _].
      apply bool_decide_eq_true in Hfree. congruence.
Qed.

(** X14. What the generic path produces is well formed: for a value that
    meets the collaborator contract and has no class with a [serialize]
    hook, every record in the result of [serialize] names a registered
    class, lists no omitted key and no key twice, and holds transport values
    under every key that is not shallow. *)
Theorem serialize_produces_wire
    (v : value) (t t' : Transferables) (s : value) :
  transferable host registry v →
  hook_free host v = true →
  serialize host registry v t = (Normal s, t') →
  wire host registry s.
Proof. intros Hv Hfree. by apply serialize_wire. Qed.

Lemma comes_back_items items :
  Forall (comes_back host registry) items →
  ∃ vs, map_completion (deserialize host registry) items = Normal vs
        ∧ ∀ t, ∃ t', for_of (serialize host registry) vs t = (Normal items, t').
Proof.
  induction 1 as [|item rest (v & Hd & Hs) _ (vs & Hds & Hss)].
  - exists []. split; [done|]. intros t. by exists t.
  - exists (v :: vs). split; [by rewrite map_completion_cons, Hd, Hds|].
    intros t. destruct (Hs t) as [t1 Hs1]. destruct (Hss t1) as [t2 Hs2].
    exists t2. by rewrite for_of_cons, Hs1, Hs2.
Qed.

Lemma comes_back_properties d entries :
  Forall (λ kv, kv.1 ∉ omit d) entries →
  Forall (λ kv, kv.1 ∉ shallow d → comes_back host registry kv.2) entries →
  "__proto__" ∉ entries.*1 →
  ∀ acc acc',
    NoDup (acc.*1 ++ entries.*1) →
    acc'.*1 = acc.*1 →
    ∃ rs, rs.*1 = entries.*1
          ∧ for_keys (assign_property host registry d) entries acc = Normal (acc ++ rs)
          ∧ ∀ t, ∃ t',
              for_in (serialize_property host registry (Own d)) rs acc' t
              = (Normal (acc' ++ entries), t').
Proof.
  intros Homit. induction Homit as [|[key s] rest Hkey _ IH];
    intros Hback Hproto acc acc' Hnodup Hkeys.
  - exists []. split; [done|]. split; [by rewrite app_nil_r|]. intros t. exists t.
    by rewrite app_nil_r.
  - apply Forall_cons in Hback as [Hs Hback]. simpl in Hkey, Hs.
    csimpl in Hnodup. csimpl in Hproto.
    apply not_elem_of_cons in Hproto as [Hkey' Hproto].
    assert (key ≠ "__proto__") as Hne by done.
    pose proof (NoDup_keys_fresh _ _ _ Hnodup) as Hfresh.
    assert (lookup_own key acc' = None) as Hfresh'.
    { apply lookup_own_None. rewrite Hkeys. by apply lookup_own_None. }
    rewrite for_keys_cons, assign_property_eq.
    case_bool_decide as Hshallow.
    + destruct (IH Hback Hproto (acc ++ [(key, s)]) (acc' ++ [(key, s)]))
        as (rs & Hrs & Hrun & Hser).
      { by apply NoDup_keys_step. }
      { by rewrite !fmap_app, Hkeys. }
      exists ((key, s) :: rs). split; [csimpl; by rewrite Hrs|].
      split; [simpl; by rewrite (set_fresh _ _ _ Hfresh Hne), Hrun, <- app_assoc|].
      intros t. rewrite for_in_cons_run, serialize_property_run.
      rewrite bool_decide_eq_false_2, bool_decide_eq_true_2 by done.
      rewrite (set_fresh _ _ _ Hfresh' Hne).
      destruct (Hser t) as [t' ->]. exists t'. by rewrite <- app_assoc.
    + destruct (Hs Hshallow) as (v & Hd & Hsv).
      destruct (IH Hback Hproto (acc ++ [(key, v)]) (acc' ++ [(key, s)]))
        as (rs & Hrs & Hrun & Hser).
      { by apply NoDup_keys_step. }
      { by rewrite !fmap_app, Hkeys. }
      exists ((key, v) :: rs). rewrite Hd. split; [csimpl; by rewrite Hrs|].
      split; [simpl; by rewrite (set_fresh _ _ _ Hfresh Hne), Hrun, <- app_assoc|].
      intros t. rewrite for_in_cons_run, serialize_property_run.
      rewrite !bool_decide_eq_false_2 by done.
      destruct (Hsv t) as [t1 ->]. rewrite (set_fresh _ _ _ Hfresh' Hne).
      destruct (Hser t1) as [t' ->]. exists t'. by rewrite <- app_assoc.
Qed.

Lemma wire_comes_back (s : value) :
  wire host registry s → ordinary s = true → comes_back host registry s.
Proof.
  induction s as [s Harr Hobj | items IH | c fields IH] using value_deep_ind;
    intros Hw Hordinary.
  - exists s.
    destruct s; try (by destruct (Harr items));
      try (by destruct (Hobj constructor own)); try (by inversion Hw);
      (split; [done|]; intros t; eexists; reflexivity).
  - inversion Hw as [v' Hpass|items' Hitems|]; subst; [done|].
    destruct (comes_back_items items) as (vs & Hd & Hs).
    { apply ordinary_array in Hordinary.
      rewrite Forall_forall in IH, Hitems, Hordinary. apply Forall_forall. auto. }
    exists (VArray vs). split; [by rewrite deserialize_array, Hd|].
    intros t. destruct (Hs t) as [t' Ht']. exists t'.
    by rewrite serialize_array, Ht'.
  - inversion Hw as [v' Hpass| |n d entries Hn Hreg Hname Hhook Hhook' Hnodup Homit Hin];
      subst; [done|].
    apply Forall_cons in IH as [_ IH]. apply Forall_cons in IH as [[_ IH] _].
    simpl in IH.
    apply ordinary_object in Hordinary as [_ Hordinary].
    apply Forall_cons in Hordinary as [_ Hordinary].
    apply Forall_cons in Hordinary as [Hordinary _].
    apply ordinary_object in Hordinary as [Hkeys Hordinary].
    destruct (comes_back_properties d entries Homit) with
      (acc := @nil (string * value)) (acc' := @nil (string * value))
      as (rs & Hrs & Hrun & Hser); [|by apply ordinary_keys_proto|done|done|].
    { rewrite Forall_forall in IH, Hin, Hordinary. apply Forall_forall. auto. }
    exists (VObject (Some (klass d)) rs). split.
    + rewrite (deserialize_record _ _ _ (Some Object) _
                 (name (class_of host (klass d))) d entries) by done.
      rewrite Hhook'. simpl in Hrun. by rewrite Hrun.
    + intros t. destruct (Hser t) as [t' Ht']. exists t'.
      rewrite (serialize_generic _ _ _ rs (Own d))
        by auto using registry_get_registered.
      rewrite (ordinary_keys_not_callable _ (ordinary_keys_same _ _ Hrs Hkeys)).
      by rewrite Ht'.
Qed.

(** X15. The round trip the other way.  On a well-formed transport value
    in which no object has a key [hasOwnProperty], [__proto__] or
    [constructor], [deserialize] returns, and [serialize] of what it
    returns is that transport value again, whatever the transferables. *)
Theorem wire_round_trip (s : value) (t : Transferables) :
  wire host registry s →
  ordinary s = true →
  ∃ v t', deserialize host registry s = Normal v
          ∧ serialize host registry v t = (Normal s, t').
Proof.
  intros Hw Hordinary. destruct (wire_comes_back s Hw Hordinary) as (v & Hd & Hs).
  destruct (Hs t) as [t' Ht']. by exists v, t'.
Qed.

Lemma without_omitted_keeps_all (v : value) :
  keeps_all host registry v = true → without_omitted host registry v = v.
Proof.
  induction v as [v Harr Hobj | items IH | c own IH] using value_nested_ind;
    intros Hkeeps.
  - destruct v; try done.
    + by destruct (Harr items).
    + by destruct (Hobj constructor own).
  - simpl in *. rewrite forallb_forall in Hkeeps. f_equal.
    induction IH as [|item rest Hitem _ IHrest]; [done|].
    simpl. rewrite Hitem, IHrest; [done| |].
    + intros x Hx. apply Hkeeps. by right.
    + apply Hkeeps. by left.
  - simpl in *. apply andb_true_iff in Hkeeps as [Hkeys Hvalues].
    destruct c as [k|]; [|done].
    destruct (static_serialize (class_of host k)); [done|].
    destruct (registry !! name (class_of host k)) as [d|]; [|done].
    rewrite forallb_forall in Hkeys, Hvalues. f_equal.
    induction IH as [|[key p] rest Hp _ IHrest]; [done|].
    simpl. rewrite IHrest.
    + specialize (Hkeys (key, p) (or_introl eq_refl)). simpl in Hkeys.
      apply negb_true_iff in Hkeys. rewrite Hkeys.
      destruct (bool_decide (key ∈ shallow d)); [done|].
      simpl in Hp. rewrite Hp; [done|]. apply (Hvalues (key, p)). by left.
    + intros x Hx. apply Hkeys. by right.
    + intros x Hx. apply Hvalues. by right.
Qed.

(** X16. The exact round trip.  For a value that meets the collaborator
    contract and in which no object has a property that its class omits,
    or an own property named [hasOwnProperty], [__proto__] or
    [constructor], [serialize] returns and [deserialize] of what it returns
    is the value itself. *)
Theorem exact_round_trip (v : value) (t : Transferables) :
  transferable host registry v →
  keeps_all host registry v = true →
  ordinary v = true →
  ∃ s t', serialize host registry v t = (Normal s, t')
          ∧ deserialize host registry s = Normal v.
Proof.
  intros Hv Hkeeps Hordinary.
  destruct (round_trip_value host registry v Hv Hordinary t) as (s & t' & Hs & Hd).
  exists s, t'. by rewrite without_omitted_keeps_all in Hd.
Qed.

End WireFormat.

(** * The further properties on the sample host *)

Lemma Sample_module_loads :
  module_load Sample.host Sample.imports
  = (Normal tt, (module_load Sample.host Sample.imports).2).
Proof.
  assert ((module_load Sample.host Sample.imports).1 = Normal tt) as H
    by (vm_compute; reflexivity).
  destruct (module_load Sample.host Sample.imports) as [c r]. simpl in *. by subst.
Qed.

Lemma Corner_registered_Tile :
  Corner.registry !! "Unregistered"
  = Some {| klass := ClassRef 11; omit := ["cache"]; shallow := ["buffer"; "callback"] |}.
Proof. vm_compute. reflexivity. Qed.

Lemma Corner_same_but_omit :
  same_but_omit Sample.registry Corner.registry_without_omit.
Proof.
  intros n. unfold Corner.registry_without_omit.
  destruct (decide (n = "StyleExpression")) as [->|Hne].
  - rewrite lookup_insert_eq, Sample_registered_StyleExpression. by constructor.
  - rewrite lookup_insert_ne by done.
    destruct (Sample.registry !! n); by constructor.
Qed.

Lemma Corner_bare_layer_transferable :
  transferable Sample.host Sample.registry Corner.bare_layer.
Proof.
  eapply transferable_instance;
    [done | apply Sample_registered_Object | done | done | done | | ].
  { apply NoDup_singleton. }
  constructor; [|constructor]. intros _.
  eapply transferable_instance;
    [done | apply Sample_registered_StyleExpression | done | done | done | | ].
  { apply NoDup_singleton. }
  repeat constructor.
Qed.

Lemma Corner_bare_layer_record_wire :
  wire Sample.host Sample.registry Corner.bare_layer_record.
Proof.
  eapply wire_record;
    [done | apply Sample_registered_Object | done | done | done | | | ].
  { apply NoDup_singleton. }
  { constructor; [|constructor]. apply not_elem_of_nil. }
  constructor; [|constructor]. intros _.
  eapply (wire_record _ _ "StyleExpression");
    [done | apply Sample_registered_StyleExpression | done | done | done | | | ].
  { apply NoDup_singleton. }
  { constructor; [|constructor]. simpl. by intros [=]%list_elem_of_singleton. }
  constructor; [|constructor]. intros _. by constructor.
Qed.

Lemma register_expressions_succeeds_witness :
  ∃ registry',
    register_expressions Sample.host (expressions Sample.imports) ∅
    = (Normal tt, registry')
    ∧ ∅ ⊆ registry'
    ∧ Forall (λ entry,
        is_Some (registry_get registry' (name (class_of Sample.host entry.2))))
        (expressions Sample.imports).
Proof.
  apply (register_expressions_succeeds Sample.host (expressions Sample.imports) ∅).
  repeat constructor; discriminate.
Defined.

Lemma module_load_registers_witness :
  Forall (λ call,
            (module_load Sample.host Sample.imports).2
              !! name (class_of Sample.host call.1)
            = Some (descriptor_of call.1 call.2))
         (module_registrations Sample.imports).
Proof.
  apply (module_load_registers Sample.host Sample.imports).
  apply Sample_module_loads.
Defined.


Lemma data_passes_unchanged_witness :
  serialize Sample.host Sample.registry
    (VArray [VNumber 1; VView Sample.view1; VArray [VUndefined; VArrayBuffer Sample.buffer1]])
    (Some [])
  = (Normal (VArray [VNumber 1; VView Sample.view1;
                     VArray [VUndefined; VArrayBuffer Sample.buffer1]]),
     (λ l, l ++ transferred Sample.host Sample.registry
                  (VArray [VNumber 1; VView Sample.view1;
                           VArray [VUndefined; VArrayBuffer Sample.buffer1]]))
       <$> Some [])
  ∧ deserialize Sample.host Sample.registry
      (VArray [VNumber 1; VView Sample.view1; VArray [VUndefined; VArrayBuffer Sample.buffer1]])
    = Normal (VArray [VNumber 1; VView Sample.view1;
                      VArray [VUndefined; VArrayBuffer Sample.buffer1]]).
Proof.
  apply (data_passes_unchanged Sample.host Sample.registry). reflexivity.
Defined.

Lemma transport_value_ignores_transferables_witness :
  (serialize Sample.host Sample.registry Sample.layer None).1
  = (serialize Sample.host Sample.registry Sample.layer (Some [Sample.buffer1])).1.
Proof.
  apply (transport_value_ignores_transferables Sample.host Sample.registry).
  reflexivity.
Defined.

Lemma omitted_properties_not_inspected_witness :
  serialize Sample.host Sample.registry
    (VObject (Some (ClassRef 3)) [("_evaluator", VFunction 1); ("x", VNumber 2)])
    (Some [])
  = serialize Sample.host Sample.registry
      (VObject (Some (ClassRef 3))
         (filter (λ kv, kv.1 ∉ ["_evaluator"])
            [("_evaluator", VFunction 1); ("x", VNumber 2)]))
      (Some []).
Proof.
  apply (omitted_properties_not_inspected Sample.host Sample.registry (ClassRef 3)
           {| klass := ClassRef 3; omit := ["_evaluator"]; shallow := [] |}).
  - discriminate.
  - apply Sample_registered_StyleExpression.
  - reflexivity.
  - reflexivity.
Defined.

Lemma shallow_properties_copied_witness :
  serialize Sample.host Corner.registry (VObject (Some (ClassRef 11)) Corner.tile)
    (Some [])
  = (Normal (record "Unregistered"
               (filter (λ kv, kv.1 ∉ ["cache"]) Corner.tile)), Some []).
Proof.
  apply (shallow_properties_copied Sample.host Corner.registry (ClassRef 11)
           {| klass := ClassRef 11; omit := ["cache"]; shallow := ["buffer"; "callback"] |}).
  - discriminate.
  - apply Corner_registered_Tile.
  - reflexivity.
  - apply (bool_decide_unpack _). vm_compute. reflexivity.
  - reflexivity.
  - apply (bool_decide_unpack _). vm_compute. reflexivity.
Defined.

Lemma first_failure_decides_witness :
  serialize Sample.host Sample.registry
    (VArray ([VArrayBuffer Sample.buffer1] ++ VFunction 1 :: [VView Sample.view1]))
    (Some [])
  = (Throw (Error "can't serialize object of type function"), Some [Sample.buffer1])
  ∧ deserialize Sample.host Sample.registry
      (VArray ([VNumber 1] ++ record "Foo" [] :: [VSymbol 1]))
    = Throw TypeError.
Proof.
  apply (first_failure_decides Sample.host Sample.registry
           [VArrayBuffer Sample.buffer1] (VFunction 1) [VView Sample.view1]
           (Some []) (Some [Sample.buffer1]) (Some [Sample.buffer1])
           [VArrayBuffer Sample.buffer1]
           (Error "can't serialize object of type function")
           [VNumber 1] (record "Foo" []) [VSymbol 1] [VNumber 1] TypeError).
  - econstructor; [reflexivity | constructor].
  - reflexivity.
  - constructor; [reflexivity | constructor].
  - vm_compute. reflexivity.
Defined.

Lemma record_without_properties_witness :
  deserialize Sample.host Sample.registry
    (VObject (Some Object) [("name", VString "Color")])
  = Throw TypeError.
Proof.
  apply (record_without_properties Sample.host Sample.registry (Some Object)
           [("name", VString "Color")] "Color"
           {| klass := ClassRef 1; omit := []; shallow := [] |}).
  - reflexivity.
  - discriminate.
  - vm_compute. reflexivity.
  - left. reflexivity.
Defined.

Lemma deserialize_never_reads_omit_witness :
  deserialize Sample.host Sample.registry
    (record "StyleExpression" [("_evaluator", VNumber 1); ("x", VNumber 2)])
  = deserialize Sample.host Corner.registry_without_omit
      (record "StyleExpression" [("_evaluator", VNumber 1); ("x", VNumber 2)]).
Proof.
  apply (deserialize_never_reads_omit Sample.host Sample.registry
           Corner.registry_without_omit).
  apply Corner_same_but_omit.
Defined.

Lemma same_name_same_transport_witness :
  serialize Sample.host Corner.registry
    (VObject (Some (ClassRef 12)) [("x", VNumber 1)]) None
  = serialize Sample.host Corner.registry
      (VObject (Some (ClassRef 11)) [("x", VNumber 1)]) None
  ∧ (serialize Sample.host Corner.registry
       (VObject (Some (ClassRef 12)) [("x", VNumber 1)]) None
     = (Normal (record "Unregistered" [("x", VNumber 1)]), None) →
     deserialize Sample.host Corner.registry (record "Unregistered" [("x", VNumber 1)])
     = Normal (VObject (Some (ClassRef 11)) [("x", VNumber 1)]) →
     ∃ own', VObject (Some (ClassRef 11)) [("x", VNumber 1)]
             = VObject (Some (ClassRef 11)) own').
Proof.
  apply (same_name_same_transport Sample.host Corner.registry
           (ClassRef 11) (ClassRef 12)
           {| klass := ClassRef 11; omit := ["cache"]; shallow := ["buffer"; "callback"] |}).
  - reflexivity.
  - discriminate.
  - apply Corner_registered_Tile.
  - reflexivity.
  - reflexivity.
  - reflexivity.
  - reflexivity.
Defined.

Lemma serialize_produces_wire_witness :
  wire Sample.host Sample.registry Corner.bare_layer_record.
Proof.
  apply (serialize_produces_wire Sample.host Sample.registry Sample.layer
           (Some []) (Some [])).
  - apply Sample_layer_transferable.
  - reflexivity.
  - reflexivity.
Defined.

Lemma wire_round_trip_witness :
  ∃ v t', deserialize Sample.host Sample.registry Corner.bare_layer_record = Normal v
          ∧ serialize Sample.host Sample.registry v (Some [])
            = (Normal Corner.bare_layer_record, t').
Proof.
  apply (wire_round_trip Sample.host Sample.registry).
  - apply Corner_bare_layer_record_wire.
  - reflexivity.
Defined.

Lemma exact_round_trip_witness :
  ∃ s t', serialize Sample.host Sample.registry Corner.bare_layer (Some []) = (Normal s, t')
          ∧ deserialize Sample.host Sample.registry s = Normal Corner.bare_layer.
Proof.
  apply (exact_round_trip Sample.host Sample.registry).
  - apply Corner_bare_layer_transferable.
  - reflexivity.
  - reflexivity.
Defined.

Lemma Worker_registered_Bare :
  Worker.registry !! "Bare"
  = Some {| klass := ClassRef 13; omit := ["__proto__"; "hasOwnProperty"];
            shallow := [] |}.
Proof. vm_compute. reflexivity. Qed.

Lemma own_hasOwnProperty_is_called_witness :
  serialize Worker.host Worker.registry
    (VObject (Some (ClassRef 13)) [("hasOwnProperty", VNumber 1); ("x", VNumber 2)])
    (Some [])
  = (Throw TypeError, Some []).
Proof.
  apply (own_hasOwnProperty_is_called Worker.host Worker.registry (ClassRef 13)
           {| klass := ClassRef 13; omit := ["__proto__"; "hasOwnProperty"];
              shallow := [] |}
           [("hasOwnProperty", VNumber 1); ("x", VNumber 2)] (VNumber 1) (Some [])).
  - discriminate.
  - apply Worker_registered_Bare.
  - reflexivity.
  - reflexivity.
  - reflexivity.
  - discriminate.
Defined.

Lemma proto_property_not_transported_witness :
  serialize Worker.host Worker.registry
    (VObject (Some (ClassRef 12))
       ([("zoom", VNumber 3)] ++ ("__proto__", VString "a") :: [("x", VNumber 2)]))
    (Some [])
  = serialize Worker.host Worker.registry
      (VObject (Some (ClassRef 12)) ([("zoom", VNumber 3)] ++ [("x", VNumber 2)]))
      (Some []).
Proof.
  apply (proto_property_not_transported Worker.host Worker.registry (ClassRef 12)
           {| klass := ClassRef 12; omit := ["cache"];
              shallow := ["buffer"; "callback"] |}).
  - discriminate.
  - apply Worker_registered_Tile.
  - reflexivity.
  - reflexivity.
  - reflexivity.
Defined.

Lemma proto_key_never_restored_witness :
  deserialize Sample.host Sample.registry
    (record "Color" ([("r", VNumber 1)] ++ ("__proto__", VNumber 1) :: [("g", VNumber 2)]))
  = deserialize Sample.host Sample.registry
      (record "Color" ([("r", VNumber 1)] ++ [("g", VNumber 2)])).
Proof.
  apply (proto_key_never_restored Sample.host Sample.registry "Color"
           [("r", VNumber 1)] [("g", VNumber 2)] (VNumber 1)).
  reflexivity.
Defined.
